(** * Decoder and variational-autoencoder branches of the segmentation network

    A shallow embedding of [model/decoder.py] and
    [model/variational_autoencoder.py].  The classes of the two files become
    records with an [init] and a [call]; tensors are a shape together with an
    indexing function; the tensor engine (TensorFlow/Keras) is an interface
    whose learned kernels and scalar arithmetic stay abstract while every
    shape rule, every index rule and every failure is written out. *)

From stdpp Require Import base option list strings gmap.
From Stdlib Require Import ZArith Lia.

Set Default Proof Using "Type".
Open Scope nat_scope.

(** ** Python exceptions and fallible computations *)

Inductive exn : Type :=
  | ValueError
  | TypeError
  | InvalidArgumentError.

Inductive result (A : Type) : Type :=
  | Ok (a : A)
  | Raise (e : exn).
Arguments Ok {A} a.
Arguments Raise {A} e.

#[global] Instance result_ret : MRet result := λ A a, Ok a.
#[global] Instance result_bind : MBind result := λ A B f m,
  match m with
  | Ok a => f a
  | Raise e => Raise e
  end.

(** ** Configuration dictionaries *)

(** The values a Keras configuration dictionary holds in these two files. *)
Inductive value : Type :=
  | VNone
  | VBool (b : bool)
  | VInt (n : Z)
  | VStr (s : string)
  | VObject (class_name : string) (config : list (string * string)).

Inductive DataFormat : Type :=
  | channels_last
  | channels_first.

Definition data_format_str (df : DataFormat) : string :=
  match df with
  | channels_last => "channels_last"
  | channels_first => "channels_first"
  end.

Inductive Initializer : Type :=
  | he_normal
  | glorot_uniform.

Inductive ActivationFn : Type :=
  | act_relu
  | act_sigmoid.

(** ** The tensor engine

    What the two files take from TensorFlow: the float32 scalars with their
    arithmetic, the learned kernels of the trainable layers, the regularizer
    objects with their serialized descriptor, and the global random
    generator behind [tf.random.normal].  The two collaborators of this
    repository that are not part of the two files, [ConvBlock] and
    [GroupNormalization], contribute their kernels here as well. *)
Class Backend : Type := {
  scalar : Type;
  weights : Type;
  rng : Type;
  regularizer : Type;
  f_half : scalar;
  f_add : scalar → scalar → scalar;
  f_mul : scalar → scalar → scalar;
  f_exp : scalar → scalar;
  f_relu : scalar → scalar;
  f_sigmoid : scalar → scalar;
  (** linear part of a 3D convolution: weights, filters, kernel size,
      strides, layout, input shape, input values, output index *)
  conv3d_kernel :
    weights → nat → nat → nat → DataFormat → list nat →
    (list nat → scalar) → list nat → scalar;
  (** affine map of a dense layer: weights, units, input shape and values *)
  dense_kernel :
    weights → nat → list nat → (list nat → scalar) → list nat → scalar;
  (** group normalization: weights, groups, axis, input shape and values *)
  group_norm_kernel :
    weights → nat → Z → list nat → (list nat → scalar) → list nat → scalar;
  (** the residual convolutional unit: weights, filters, kernel size,
      layout, groups, reduction and squeeze-excitation switch where they
      are passed, input shape and values *)
  conv_block_kernel :
    weights → nat → nat → DataFormat → nat → option nat → option bool →
    list nat → (list nat → scalar) → list nat → scalar;
  (** [tf.random.normal]: the draw for a shape, and the generator after it *)
  normal_draw : rng → list nat → (list nat → scalar) * rng;
  (** [tf.keras.regularizers.serialize] on a regularizer object *)
  regularizer_descriptor : regularizer → value;
}.

(** ** Tensors *)

Section tensors.
Context `{B : Backend}.

Record Tensor : Type := mkTensor {
  shape : list nat;
  val : list nat → scalar;
}.

Definition rank (t : Tensor) : nat := length (shape t).

(** [idx] addresses an entry of a tensor of shape [s]. *)
Definition in_range (idx s : list nat) : Prop := Forall2 lt idx s.

Definition prod_dims (s : list nat) : nat := foldr Nat.mul 1 s.

(** Row-major position of a multi-index, and back. *)
Fixpoint ravel (dims idx : list nat) : nat :=
  match dims, idx with
  | _ :: ds, i :: idx' => i * prod_dims ds + ravel ds idx'
  | _, _ => 0
  end.

Fixpoint unravel (dims : list nat) (k : nat) : list nat :=
  match dims with
  | [] => []
  | _ :: ds => (k / prod_dims ds) :: unravel ds (k mod prod_dims ds)
  end.

(** *** Element-wise arithmetic with broadcasting

    [a + b] and [a * b] on tensors align the two shapes from the right; a
    pair of dimensions is compatible when they are equal or one of them
    is 1, and the operation raises otherwise. *)
Fixpoint broadcast_rev (s1 s2 : list nat) : option (list nat) :=
  match s1, s2 with
  | [], _ => Some s2
  | _, [] => Some s1
  | a :: s1', b :: s2' =>
      if decide (a = b) then cons a <$> broadcast_rev s1' s2'
      else if decide (a = 1) then cons b <$> broadcast_rev s1' s2'
      else if decide (b = 1) then cons a <$> broadcast_rev s1' s2'
      else None
  end.

Definition broadcast_shape (s1 s2 : list nat) : option (list nat) :=
  reverse <$> broadcast_rev (reverse s1) (reverse s2).

(** The entry of an operand of shape [s] read for the output index. *)
Definition broadcast_index (s idx : list nat) : list nat :=
  zip_with (λ d i, if decide (d = 1) then 0 else i)
           s (drop (length idx - length s) idx).

Definition tensor_map (f : scalar → scalar) (a : Tensor) : Tensor :=
  {| shape := shape a; val := λ idx, f (val a idx) |}.

Definition tensor_zip (f : scalar → scalar → scalar) (a b : Tensor)
  : result Tensor :=
  match broadcast_shape (shape a) (shape b) with
  | Some s =>
      Ok {| shape := s;
            val := λ idx, f (val a (broadcast_index (shape a) idx))
                            (val b (broadcast_index (shape b) idx)) |}
  | None => Raise InvalidArgumentError
  end.

Definition tensor_add : Tensor → Tensor → result Tensor := tensor_zip f_add.
Definition tensor_mul : Tensor → Tensor → result Tensor := tensor_zip f_mul.
(** [c * t] for a Python float [c] *)
Definition scalar_mul (c : scalar) : Tensor → Tensor := tensor_map (f_mul c).
Definition tensor_exp : Tensor → Tensor := tensor_map f_exp.

(** *** Slices of the second axis: [x[:, :k]] and [x[:, k:]] *)
Definition slice_to (k : nat) (x : Tensor) : result Tensor :=
  match shape x with
  | n :: m :: rest =>
      Ok {| shape := n :: Nat.min k m :: rest; val := val x |}
  | _ => Raise ValueError
  end.

Definition slice_from (k : nat) (x : Tensor) : result Tensor :=
  match shape x with
  | n :: m :: rest =>
      Ok {| shape := n :: (m - k) :: rest;
            val := λ idx,
              match idx with
              | i :: j :: r => val x (i :: (j + k) :: r)
              | _ => val x idx
              end |}
  | _ => Raise ValueError
  end.

(** *** Computations that read the global random generator *)
Definition M (A : Type) : Type := rng → result (A * rng).

#[global] Instance M_ret : MRet M := λ A a g, Ok (a, g).
#[global] Instance M_bind : MBind M := λ A C f m g,
  match m g with
  | Ok (a, g') => f a g'
  | Raise e => Raise e
  end.

Definition lift {A} (r : result A) : M A := λ g,
  match r with
  | Ok a => Ok (a, g)
  | Raise e => Raise e
  end.

(** [tf.random.normal(shape=s)] against the global generator. *)
Definition random_normal (s : list nat) : M Tensor := λ g,
  let '(v, g') := normal_draw g s in Ok ({| shape := s; val := v |}, g').

(** *** Five-dimensional volumes: batch, three spatial axes, channels *)
Definition volume_shape (df : DataFormat) (n d1 d2 d3 c : nat) : list nat :=
  match df with
  | channels_last => [n; d1; d2; d3; c]
  | channels_first => [n; c; d1; d2; d3]
  end.

Definition as_volume (df : DataFormat) (s : list nat)
  : option (nat * (nat * nat * nat) * nat) :=
  match s with
  | [n; a; b; c; e] =>
      match df with
      | channels_last => Some (n, (a, b, c), e)
      | channels_first => Some (n, (b, c, e), a)
      end
  | _ => None
  end.

Definition batch_of (s : list nat) : option nat := head s.

Definition spatial_of (df : DataFormat) (s : list nat)
  : option (nat * nat * nat) :=
  '(_, sp, _) ← as_volume df s; Some sp.

Definition channels_of (df : DataFormat) (s : list nat) : option nat :=
  '(_, _, c) ← as_volume df s; Some c.

End tensors.

(** ** The Keras layers the two files instantiate

    Every convolution of the two files is built with [padding='same']. *)

Module Layer.
(** The base class: what [super().__init__(name=...)] records and what
    [super().get_config()] returns.  Without a [name] argument Keras picks
    a fresh one from the class name; it is an argument here. *)
Record t : Type := mk {
  name : string;
  trainable : bool;
  dtype : string;
}.

Definition init (name : string) : t :=
  {| name := name; trainable := true; dtype := "float32" |}.

Definition get_config (l : t) : gmap string value :=
  <["name" := VStr (name l)]>
    (<["trainable" := VBool (trainable l)]>
       (<["dtype" := VStr (dtype l)]> ∅)).

(** The call the inherited [from_config] makes, the class applied to the
    entries of [config] as keyword arguments: Python binds them to the
    parameters of [__init__] and
    raises [TypeError] for a keyword that names no parameter or for a
    parameter that has no default and no entry. *)
Definition bind_keywords (params required : list string)
    (config : gmap string value) : result (gmap string value) :=
  if decide (dom config ⊆ list_to_set params) then
    if decide (list_to_set required ⊆ dom config) then Ok config
    else Raise TypeError
  else Raise TypeError.
End Layer.

Section activations.
Context `{B : Backend}.

Definition activation_fn (a : ActivationFn) : scalar → scalar :=
  match a with
  | act_relu => f_relu
  | act_sigmoid => f_sigmoid
  end.

Definition apply_activation (a : option ActivationFn) (t : Tensor) : Tensor :=
  match a with
  | None => t
  | Some fn => tensor_map (activation_fn fn) t
  end.

(** Output extent of a strided window with [padding='same']. *)
Definition same_extent (d stride : nat) : nat := (d + stride - 1) / stride.
End activations.

Module Conv3D.
Section defs.
Context `{B : Backend}.

Record t : Type := mk {
  filters : nat;
  kernel_size : nat;
  strides : nat;
  data_format : DataFormat;
  kernel_initializer : Initializer;
  kernel_regularizer : option regularizer;
  activation : option ActivationFn;
  kernel : weights;
}.

(** The convolution before its activation. *)
Definition linear (l : t) (x : Tensor) : result Tensor :=
  match as_volume (data_format l) (shape x) with
  | Some (n, (d1, d2, d3), _) =>
      Ok {| shape := volume_shape (data_format l) n
                       (same_extent d1 (strides l))
                       (same_extent d2 (strides l))
                       (same_extent d3 (strides l))
                       (filters l);
            val := conv3d_kernel (kernel l) (filters l) (kernel_size l)
                     (strides l) (data_format l) (shape x) (val x) |}
  | None => Raise ValueError
  end.

Definition call (l : t) (x : Tensor) : result Tensor :=
  y ← linear l x; Ok (apply_activation (activation l) y).
End defs.
End Conv3D.

Module UpSampling3D.
Section defs.
Context `{B : Backend}.

Record t : Type := mk {
  size : nat;
  data_format : DataFormat;
}.

(** Every output voxel repeats the input voxel it lies over. *)
Definition source_index (l : t) (idx : list nat) : list nat :=
  match idx with
  | [i0; i1; i2; i3; i4] =>
      match data_format l with
      | channels_last => [i0; i1 / size l; i2 / size l; i3 / size l; i4]
      | channels_first => [i0; i1; i2 / size l; i3 / size l; i4 / size l]
      end
  | _ => idx
  end.

Definition call (l : t) (x : Tensor) : result Tensor :=
  match as_volume (data_format l) (shape x) with
  | Some (n, (d1, d2, d3), c) =>
      Ok {| shape := volume_shape (data_format l) n
                       (size l * d1) (size l * d2) (size l * d3) c;
            val := λ idx, val x (source_index l idx) |}
  | None => Raise ValueError
  end.
End defs.
End UpSampling3D.

Module Add.
Section defs.
Context `{B : Backend}.

Inductive t : Type := mk.

(** The merge layer adds two tensors of one rank and one batch size,
    broadcasting the other axes.  Operands of different rank, which
    Keras first pads with unit axes, are not volumes of a decoder level
    and are rejected here. *)
Definition call (_ : t) (inputs : Tensor * Tensor) : result Tensor :=
  let '(a, b) := inputs in
  if decide (rank a = rank b) then
    if decide (batch_of (shape a) = batch_of (shape b)) then tensor_add a b
    else Raise ValueError
  else Raise ValueError.
End defs.
End Add.

Module Activation.
Section defs.
Context `{B : Backend}.

Record t : Type := mk { fn : ActivationFn }.

Definition call (l : t) (x : Tensor) : result Tensor :=
  Ok (tensor_map (activation_fn (fn l)) x).
End defs.
End Activation.

Module Flatten.
Section defs.
Context `{B : Backend}.

Record t : Type := mk { data_format : DataFormat }.

(** With [channels_first] the channel axis is moved last before the
    row-major flattening. *)
Definition source_index (l : t) (s idx : list nat) : list nat :=
  match s, idx with
  | _ :: rest, [i; j] =>
      match data_format l, rest with
      | channels_first, c :: sp =>
          let u := unravel (sp ++ [c]) j in
          i :: default 0 (last u) :: take (length sp) u
      | _, _ => i :: unravel rest j
      end
  | _, _ => idx
  end.

Definition call (l : t) (x : Tensor) : result Tensor :=
  match shape x with
  | n :: rest =>
      Ok {| shape := [n; prod_dims rest];
            val := λ idx, val x (source_index l (shape x) idx) |}
  | [] => Raise ValueError
  end.
End defs.
End Flatten.

Module Reshape.
Section defs.
Context `{B : Backend}.

Record t : Type := mk { target_shape : list nat }.

Definition source_index (l : t) (s idx : list nat) : list nat :=
  match s, idx with
  | _ :: rest, i :: tidx => i :: unravel rest (ravel (target_shape l) tidx)
  | _, _ => idx
  end.

Definition call (l : t) (x : Tensor) : result Tensor :=
  match shape x with
  | n :: rest =>
      if decide (prod_dims rest = prod_dims (target_shape l)) then
        Ok {| shape := n :: target_shape l;
              val := λ idx, val x (source_index l (shape x) idx) |}
      else Raise ValueError
  | [] => Raise ValueError
  end.
End defs.
End Reshape.

Module Dense.
Section defs.
Context `{B : Backend}.

Record t : Type := mk {
  units : nat;
  kernel : weights;
}.

Definition call (l : t) (x : Tensor) : result Tensor :=
  if decide (2 ≤ rank x) then
    Ok {| shape := take (rank x - 1) (shape x) ++ [units l];
          val := dense_kernel (kernel l) (units l) (shape x) (val x) |}
  else Raise ValueError.
End defs.
End Dense.

Module Lambda.
Section defs.
Context `{B : Backend}.

Record t : Type := mk { function : Tensor * Tensor → M Tensor }.

Definition call (l : t) (inputs : Tensor * Tensor) : M Tensor :=
  function l inputs.
End defs.
End Lambda.

(** ** Collaborators of this repository outside the two files *)

Module ConvBlock.
Section defs.
Context `{B : Backend}.

(** The arguments the two files pass; [reduction], [kernel_initializer]
    and [use_se] are absent in the autoencoder's calls. *)
Record t : Type := mk {
  filters : nat;
  kernel_size : nat;
  data_format : DataFormat;
  groups : nat;
  reduction : option nat;
  kernel_regularizer : option regularizer;
  kernel_initializer : option Initializer;
  use_se : option bool;
  kernel : weights;
}.

(** Modelled from the spec: [ConvBlock] is defined in
    [model/resnet_block.py] and [model/layers.py], which are not part of
    the sources.  It is the residual convolutional unit the spec treats
    as a black box: it takes a volume and returns a volume of the same
    batch size and spatial extent with [filters] channels. *)
Definition call (l : t) (x : Tensor) : result Tensor :=
  match as_volume (data_format l) (shape x) with
  | Some (n, (d1, d2, d3), _) =>
      Ok {| shape := volume_shape (data_format l) n d1 d2 d3 (filters l);
            val := conv_block_kernel (kernel l) (filters l) (kernel_size l)
                     (data_format l) (groups l) (reduction l) (use_se l)
                     (shape x) (val x) |}
  | None => Raise ValueError
  end.
End defs.
End ConvBlock.

Module GroupNormalization.
Section defs.
Context `{B : Backend}.

Record t : Type := mk {
  groups : nat;
  axis : Z;
  kernel : weights;
}.

(** Modelled from the spec: [GroupNormalization] is defined in
    [model/group_norm.py], which is not part of the sources.  It
    normalizes the activations over groups of channels and keeps the
    shape of its input. *)
Definition call (l : t) (x : Tensor) : result Tensor :=
  Ok {| shape := shape x;
        val := group_norm_kernel (kernel l) (groups l) (axis l)
                 (shape x) (val x) |}.
End defs.
End GroupNormalization.

(** The names [utils/constants.py] exports to the two files.  The module is
    not part of the sources, so its values are parameters: sizes, hence
    natural numbers. *)
Class Constants : Type := {
  H : nat;
  W : nat;
  D : nat;
  IN_CH : nat;
  OUT_CH : nat;
  DEC_CONV_BLOCK2_SIZE : nat;
  DEC_CONV_BLOCK1_SIZE : nat;
  DEC_CONV_BLOCK0_SIZE : nat;
  DEC_CONV_LAYER_SIZE : nat;
  VAE_VD_CONV_SIZE : nat;
  VAE_VD_BLOCK_SIZE : nat;
  VAE_LATENT_SIZE : nat;
  VAE_VU_BLOCK_SIZE : nat;
  VAE_CONV_BLOCK2_SIZE : nat;
  VAE_CONV_BLOCK1_SIZE : nat;
  VAE_CONV_BLOCK0_SIZE : nat;
}.

Section serialization.
Context `{B : Backend}.

(** [tf.keras.regularizers.serialize] *)
Definition regularizers_serialize (r : option regularizer) : value :=
  match r with
  | None => VNone
  | Some r => regularizer_descriptor r
  end.

(** [d.update(e)] on dictionaries *)
Definition update (d e : gmap string value) : gmap string value := e ∪ d.
End serialization.

(** ** model/decoder.py *)

Module DecoderBlock.
Section defs.
Context `{B : Backend}.

(** The learned parameters of the two trainable sub-layers. *)
Record params : Type := mk_params {
  ptwise_weights : weights;
  conv_block_weights : weights;
}.

Record t : Type := mk {
  base : Layer.t;
  config : gmap string value;
  conv3d_ptwise : Conv3D.t;
  upsample : UpSampling3D.t;
  residual : Add.t;
  conv_block : ConvBlock.t;
}.

(** The parameters of [__init__] after [self]. *)
Definition init_params : list string :=
  ["filters"; "kernel_size"; "data_format"; "groups"; "reduction";
   "kernel_regularizer"; "kernel_initializer"; "use_se"].

Definition init (name : string) (filters kernel_size : nat)
    (data_format : DataFormat) (groups reduction : nat)
    (kernel_regularizer : option regularizer)
    (kernel_initializer : Initializer) (use_se : bool) (θ : params) : t :=
  let base := Layer.init name in
  {| base := base;
     config :=
       update (Layer.get_config base)
         (<["filters" := VInt (Z.of_nat filters)]>
         (<["kernel_size" := VInt (Z.of_nat kernel_size)]>
         (<["data_format" := VStr (data_format_str data_format)]>
         (<["groups" := VInt (Z.of_nat groups)]>
         (<["reduction" := VInt (Z.of_nat reduction)]>
         (<["kernel_regularizer" :=
              regularizers_serialize kernel_regularizer]>
         (<["use_se" := VBool use_se]> ∅)))))));
     conv3d_ptwise :=
       {| Conv3D.filters := filters;
          Conv3D.kernel_size := 1;
          Conv3D.strides := 1;
          Conv3D.data_format := data_format;
          Conv3D.kernel_initializer := kernel_initializer;
          Conv3D.kernel_regularizer := kernel_regularizer;
          Conv3D.activation := None;
          Conv3D.kernel := ptwise_weights θ |};
     upsample :=
       {| UpSampling3D.size := 2;
          UpSampling3D.data_format := data_format |};
     residual := Add.mk;
     conv_block :=
       {| ConvBlock.filters := filters;
          ConvBlock.kernel_size := kernel_size;
          ConvBlock.data_format := data_format;
          ConvBlock.groups := groups;
          ConvBlock.reduction := Some reduction;
          ConvBlock.kernel_regularizer := kernel_regularizer;
          ConvBlock.kernel_initializer := Some kernel_initializer;
          ConvBlock.use_se := Some use_se;
          ConvBlock.kernel := conv_block_weights θ |} |}.

(** [DecoderBlock(filters)] with every optional argument at its default *)
Definition init_default (name : string) (filters : nat) (θ : params) : t :=
  init name filters 3 channels_last 8 4 None he_normal false θ.

Definition call (self : t) (inputs : Tensor * Tensor) : result Tensor :=
  let '(inputs, enc_res) := inputs in
  inputs ← Conv3D.call (conv3d_ptwise self) inputs;
  inputs ← UpSampling3D.call (upsample self) inputs;
  inputs ← Add.call (residual self) (inputs, enc_res);
  inputs ← ConvBlock.call (conv_block self) inputs;
  Ok inputs.

Definition get_config (self : t) : gmap string value := config self.
End defs.
End DecoderBlock.

Module ConvDecoder.
Section defs.
Context `{B : Backend} `{K : Constants}.

Record params : Type := mk_params {
  dec_block_2_params : DecoderBlock.params;
  dec_block_1_params : DecoderBlock.params;
  dec_block_0_params : DecoderBlock.params;
  conv_out_kernel : weights;
  ptwise_logits_kernel : weights;
}.

Record t : Type := mk {
  base : Layer.t;
  config : gmap string value;
  dec_block_2 : DecoderBlock.t;
  dec_block_1 : DecoderBlock.t;
  dec_block_0 : DecoderBlock.t;
  conv_out : Conv3D.t;
  ptwise_logits : Conv3D.t;
}.

Definition init_params : list string :=
  ["data_format"; "kernel_size"; "groups"; "reduction";
   "kernel_regularizer"; "kernel_initializer"; "use_se"].

(** [name] is the name Keras gives the decoder, [names] those of its
    three blocks. *)
Definition init (name : string) (names : string * string * string)
    (data_format : DataFormat) (kernel_size groups reduction : nat)
    (kernel_regularizer : option regularizer)
    (kernel_initializer : Initializer) (use_se : bool) (θ : params) : t :=
  let base := Layer.init name in
  let '(name2, name1, name0) := names in
  {| base := base;
     config :=
       update (Layer.get_config base)
         (<["data_format" := VStr (data_format_str data_format)]>
         (<["kernel_size" := VInt (Z.of_nat kernel_size)]>
         (<["groups" := VInt (Z.of_nat groups)]>
         (<["reduction" := VInt (Z.of_nat reduction)]>
         (<["kernel_regularizer" :=
              regularizers_serialize kernel_regularizer]>
         (<["use_se" := VBool use_se]> ∅))))));
     dec_block_2 :=
       DecoderBlock.init name2 DEC_CONV_BLOCK2_SIZE kernel_size data_format
         groups reduction kernel_regularizer kernel_initializer use_se
         (dec_block_2_params θ);
     dec_block_1 :=
       DecoderBlock.init name1 DEC_CONV_BLOCK1_SIZE kernel_size data_format
         groups reduction kernel_regularizer kernel_initializer use_se
         (dec_block_1_params θ);
     dec_block_0 :=
       DecoderBlock.init name0 DEC_CONV_BLOCK0_SIZE kernel_size data_format
         groups reduction kernel_regularizer kernel_initializer use_se
         (dec_block_0_params θ);
     conv_out :=
       {| Conv3D.filters := DEC_CONV_LAYER_SIZE;
          Conv3D.kernel_size := kernel_size;
          Conv3D.strides := 1;
          Conv3D.data_format := data_format;
          Conv3D.kernel_initializer := kernel_initializer;
          Conv3D.kernel_regularizer := kernel_regularizer;
          Conv3D.activation := None;
          Conv3D.kernel := conv_out_kernel θ |};
     ptwise_logits :=
       {| Conv3D.filters := OUT_CH - 1;
          Conv3D.kernel_size := 1;
          Conv3D.strides := 1;
          Conv3D.data_format := data_format;
          Conv3D.kernel_initializer := kernel_initializer;
          Conv3D.kernel_regularizer := kernel_regularizer;
          Conv3D.activation := Some act_sigmoid;
          Conv3D.kernel := ptwise_logits_kernel θ |} |}.

Definition init_default (name : string) (names : string * string * string)
    (θ : params) : t :=
  init name names channels_last 3 8 4 None he_normal false θ.

Definition call (self : t) (inputs : Tensor * Tensor * Tensor * Tensor)
  : result Tensor :=
  let '(enc_out_0, enc_out_1, enc_out_2, x) := inputs in
  x ← DecoderBlock.call (dec_block_2 self) (x, enc_out_2);
  x ← DecoderBlock.call (dec_block_1 self) (x, enc_out_1);
  x ← DecoderBlock.call (dec_block_0 self) (x, enc_out_0);
  x ← Conv3D.call (conv_out self) x;
  x ← Conv3D.call (ptwise_logits self) x;
  Ok x.

Definition get_config (self : t) : gmap string value := config self.
End defs.
End ConvDecoder.

(** ** model/variational_autoencoder.py *)

Section sampling.
Context `{B : Backend}.

(** Samples from the Gaussian given by mean and variance. *)
Definition sample (latent_args : Tensor * Tensor) : M Tensor :=
  let '(z_mean, z_logvar) := latent_args in
  eps ← random_normal (shape z_mean);
  lift (scaled ← tensor_mul (tensor_exp (scalar_mul f_half z_logvar)) eps;
        tensor_add z_mean scaled).
End sampling.

Module VariationalAutoencoderBlock.
Section defs.
Context `{B : Backend}.

Record params : Type := mk_params {
  ptwise_weights : weights;
  conv_block_weights : weights;
}.

Record t : Type := mk {
  base : Layer.t;
  conv3d_ptwise : Conv3D.t;
  upsample : UpSampling3D.t;
  conv_block : ConvBlock.t;
}.

Definition init_params : list string :=
  ["filters"; "kernel_size"; "data_format"; "groups"; "kernel_regularizer"].

Definition init (name : string) (filters kernel_size : nat)
    (data_format : DataFormat) (groups : nat)
    (kernel_regularizer : option regularizer) (θ : params) : t :=
  {| base := Layer.init name;
     conv3d_ptwise :=
       {| Conv3D.filters := filters;
          Conv3D.kernel_size := 1;
          Conv3D.strides := 1;
          Conv3D.data_format := data_format;
          Conv3D.kernel_initializer := glorot_uniform;
          Conv3D.kernel_regularizer := kernel_regularizer;
          Conv3D.activation := None;
          Conv3D.kernel := ptwise_weights θ |};
     upsample :=
       {| UpSampling3D.size := 2;
          UpSampling3D.data_format := data_format |};
     conv_block :=
       {| ConvBlock.filters := filters;
          ConvBlock.kernel_size := kernel_size;
          ConvBlock.data_format := data_format;
          ConvBlock.groups := groups;
          ConvBlock.reduction := None;
          ConvBlock.kernel_regularizer := kernel_regularizer;
          ConvBlock.kernel_initializer := None;
          ConvBlock.use_se := None;
          ConvBlock.kernel := conv_block_weights θ |} |}.

Definition call (self : t) (x : Tensor) : result Tensor :=
  x ← Conv3D.call (conv3d_ptwise self) x;
  x ← UpSampling3D.call (upsample self) x;
  x ← ConvBlock.call (conv_block self) x;
  Ok x.

(** The class defines no [get_config]: the base layer's is inherited. *)
Definition get_config (self : t) : gmap string value :=
  Layer.get_config (base self).
End defs.
End VariationalAutoencoderBlock.

Module VariationalAutoencoder.
Section defs.
Context `{B : Backend} `{K : Constants}.

Record params : Type := mk_params {
  groupnorm_VD_weights : weights;
  conv3d_VD_kernel : weights;
  proj_VD_kernel : weights;
  proj_VU_kernel : weights;
  conv1d_VU_kernel : weights;
  conv_block_2_params : VariationalAutoencoderBlock.params;
  conv_block_1_params : VariationalAutoencoderBlock.params;
  conv_block_0_params : VariationalAutoencoderBlock.params;
  conv_out_kernel : weights;
}.

Record t : Type := mk {
  base : Layer.t;
  groupnorm_VD : GroupNormalization.t;
  relu_VD : Activation.t;
  conv3d_VD : Conv3D.t;
  flatten_VD : Flatten.t;
  proj_VD : Dense.t;
  sample_ : Lambda.t;
  proj_VU : Dense.t;
  relu_VU : Activation.t;
  reshape_VU : Reshape.t;
  conv1d_VU : Conv3D.t;
  conv3d_upsample_VU : UpSampling3D.t;
  conv_block_2 : VariationalAutoencoderBlock.t;
  conv_block_1 : VariationalAutoencoderBlock.t;
  conv_block_0 : VariationalAutoencoderBlock.t;
  conv_out : Conv3D.t;
}.

Definition init_params : list string :=
  ["data_format"; "groups"; "kernel_size"; "kernel_regularizer"].

(** [names] are the names Keras gives the three blocks. *)
Definition init (names : string * string * string)
    (data_format : DataFormat) (groups kernel_size : nat)
    (kernel_regularizer : option regularizer) (θ : params) : t :=
  let '(name2, name1, name0) := names in
  let h := H / 16 in
  let w := W / 16 in
  let d := D / 16 in
  {| base := Layer.init "variational_autoencoder";
     groupnorm_VD :=
       {| GroupNormalization.groups := groups;
          GroupNormalization.axis :=
            match data_format with
            | channels_last => (-1)%Z
            | channels_first => 1%Z
            end;
          GroupNormalization.kernel := groupnorm_VD_weights θ |};
     relu_VD := {| Activation.fn := act_relu |};
     conv3d_VD :=
       {| Conv3D.filters := VAE_VD_CONV_SIZE;
          Conv3D.kernel_size := kernel_size;
          Conv3D.strides := 2;
          Conv3D.data_format := data_format;
          Conv3D.kernel_initializer := glorot_uniform;
          Conv3D.kernel_regularizer := kernel_regularizer;
          Conv3D.activation := None;
          Conv3D.kernel := conv3d_VD_kernel θ |};
     flatten_VD := {| Flatten.data_format := data_format |};
     proj_VD :=
       {| Dense.units := VAE_VD_BLOCK_SIZE;
          Dense.kernel := proj_VD_kernel θ |};
     sample_ := {| Lambda.function := sample |};
     proj_VU :=
       {| Dense.units := h * w * d * 1;
          Dense.kernel := proj_VU_kernel θ |};
     relu_VU := {| Activation.fn := act_relu |};
     reshape_VU := {| Reshape.target_shape := [h; w; d; 1] |};
     conv1d_VU :=
       {| Conv3D.filters := VAE_VU_BLOCK_SIZE;
          Conv3D.kernel_size := 1;
          Conv3D.strides := 1;
          Conv3D.data_format := data_format;
          Conv3D.kernel_initializer := glorot_uniform;
          Conv3D.kernel_regularizer := kernel_regularizer;
          Conv3D.activation := None;
          Conv3D.kernel := conv1d_VU_kernel θ |};
     conv3d_upsample_VU :=
       {| UpSampling3D.size := 2;
          UpSampling3D.data_format := data_format |};
     conv_block_2 :=
       VariationalAutoencoderBlock.init name2 VAE_CONV_BLOCK2_SIZE
         kernel_size data_format groups kernel_regularizer
         (conv_block_2_params θ);
     conv_block_1 :=
       VariationalAutoencoderBlock.init name1 VAE_CONV_BLOCK1_SIZE
         kernel_size data_format groups kernel_regularizer
         (conv_block_1_params θ);
     conv_block_0 :=
       VariationalAutoencoderBlock.init name0 VAE_CONV_BLOCK0_SIZE
         kernel_size data_format groups kernel_regularizer
         (conv_block_0_params θ);
     conv_out :=
       {| Conv3D.filters := IN_CH;
          Conv3D.kernel_size := kernel_size;
          Conv3D.strides := 1;
          Conv3D.data_format := data_format;
          Conv3D.kernel_initializer := glorot_uniform;
          Conv3D.kernel_regularizer := kernel_regularizer;
          Conv3D.activation := None;
          Conv3D.kernel := conv_out_kernel θ |} |}.

Definition init_default (names : string * string * string) (θ : params)
  : t :=
  init names channels_last 8 3 None θ.

Definition call (self : t) (x : Tensor) : M (Tensor * Tensor * Tensor) :=
  (* VD Block *)
  x ← lift (GroupNormalization.call (groupnorm_VD self) x);
  x ← lift (Activation.call (relu_VD self) x);
  x ← lift (Conv3D.call (conv3d_VD self) x);
  x ← lift (Flatten.call (flatten_VD self) x);
  x ← lift (Dense.call (proj_VD self) x);
  (* VDraw Block *)
  z_mean ← lift (slice_to VAE_LATENT_SIZE x);
  z_logvar ← lift (slice_from VAE_LATENT_SIZE x);
  x ← Lambda.call (sample_ self) (z_mean, z_logvar);
  (* VU Block *)
  x ← lift (Dense.call (proj_VU self) x);
  x ← lift (Activation.call (relu_VU self) x);
  x ← lift (Reshape.call (reshape_VU self) x);
  x ← lift (Conv3D.call (conv1d_VU self) x);
  x ← lift (UpSampling3D.call (conv3d_upsample_VU self) x);
  (* VUp2 and VBlock2 *)
  x ← lift (VariationalAutoencoderBlock.call (conv_block_2 self) x);
  (* VUp1 and VBlock1 *)
  x ← lift (VariationalAutoencoderBlock.call (conv_block_1 self) x);
  (* VUp0 and VBlock0 *)
  x ← lift (VariationalAutoencoderBlock.call (conv_block_0 self) x);
  (* Vend *)
  x ← lift (Conv3D.call (conv_out self) x);
  mret (x, z_mean, z_logvar).

(** The class defines no [get_config]: the base layer's is inherited. *)
Definition get_config (self : t) : gmap string value :=
  Layer.get_config (base self).
End defs.
End VariationalAutoencoder.

(** ** The blocks of [VariationalAutoencoder.call]

    The forward pass names its stages in comments (VD, VDraw, VU, VUp+Block,
    Vend); they are given here as functions of their own, to state what is
    passed from one to the next. *)

Section stages.
Context `{B : Backend} `{K : Constants}.
Import VariationalAutoencoder.

(** VD: reduce dimensionality and flatten, up to the dense projection. *)
Definition VD_block (self : t) (x : Tensor) : result Tensor :=
  x ← GroupNormalization.call (groupnorm_VD self) x;
  x ← Activation.call (relu_VD self) x;
  x ← Conv3D.call (conv3d_VD self) x;
  x ← Flatten.call (flatten_VD self) x;
  Dense.call (proj_VD self) x.

(** VU: reconstruct a volume from the sampled vector. *)
Definition VU_block (self : t) (z : Tensor) : result Tensor :=
  x ← Dense.call (proj_VU self) z;
  x ← Activation.call (relu_VU self) x;
  x ← Reshape.call (reshape_VU self) x;
  x ← Conv3D.call (conv1d_VU self) x;
  UpSampling3D.call (conv3d_upsample_VU self) x.

(** The three upsampling blocks, up to the input of the last convolution. *)
Definition VUp_blocks (self : t) (x : Tensor) : result Tensor :=
  x ← VariationalAutoencoderBlock.call (conv_block_2 self) x;
  x ← VariationalAutoencoderBlock.call (conv_block_1 self) x;
  VariationalAutoencoderBlock.call (conv_block_0 self) x.

(** Everything after the sampling step. *)
Definition decode (self : t) (z : Tensor) : result Tensor :=
  x ← VU_block self z;
  x ← VUp_blocks self x;
  Conv3D.call (conv_out self) x.

(** The tensors a run returns, without the generator it leaves behind. *)
Definition outputs {A} (r : result (A * rng)) : result A :=
  '(a, _) ← r; Ok a.
End stages.

(** ** A symbolic engine for running the model on concrete shapes

    Scalars are terms over the entries of named input tensors, the draws of
    the generator and the outputs of the learned kernels. *)

Inductive sym : Type :=
  | SHalf
  | SInput (tensor : nat) (idx : list nat)
  | SNormal (draw : nat) (idx : list nat)
  | SLearned (layer : nat) (idx : list nat)
  | SAdd (a b : sym)
  | SMul (a b : sym)
  | SExp (a : sym)
  | SRelu (a : sym)
  | SSigmoid (a : sym).

(** The generator is the number of the next draw together with a count of
    the calls made so far, which no draw depends on. *)
#[local] Instance symbolic : Backend := {|
  scalar := sym;
  weights := nat;
  rng := nat * nat;
  regularizer := string;
  f_half := SHalf;
  f_add := SAdd;
  f_mul := SMul;
  f_exp := SExp;
  f_relu := SRelu;
  f_sigmoid := SSigmoid;
  conv3d_kernel := λ w _ _ _ _ _ _ idx, SLearned w idx;
  dense_kernel := λ w _ _ _ idx, SLearned w idx;
  group_norm_kernel := λ w _ _ _ _ idx, SLearned w idx;
  conv_block_kernel := λ w _ _ _ _ _ _ _ _ idx, SLearned w idx;
  normal_draw := λ g _, (SNormal g.1, (S g.1, S g.2));
  regularizer_descriptor := λ r, VObject r [];
|}.

(** Sizes of the network of the paper the two files follow, for a 64-voxel
    cube: residuals of 32, 64 and 128 channels, a 128-dimensional latent. *)
#[local] Instance paper_sizes : Constants := {|
  H := 64; W := 64; D := 64;
  IN_CH := 4; OUT_CH := 3;
  DEC_CONV_BLOCK2_SIZE := 128;
  DEC_CONV_BLOCK1_SIZE := 64;
  DEC_CONV_BLOCK0_SIZE := 32;
  DEC_CONV_LAYER_SIZE := 32;
  VAE_VD_CONV_SIZE := 16;
  VAE_VD_BLOCK_SIZE := 256;
  VAE_LATENT_SIZE := 128;
  VAE_VU_BLOCK_SIZE := 256;
  VAE_CONV_BLOCK2_SIZE := 128;
  VAE_CONV_BLOCK1_SIZE := 64;
  VAE_CONV_BLOCK0_SIZE := 32;
|}.

(** The input tensor number [k] of shape [s]. *)
Definition input_tensor (k : nat) (s : list nat) : Tensor :=
  {| shape := s; val := SInput k |}.

Definition decoder_block_weights (k : nat) : DecoderBlock.params :=
  {| DecoderBlock.ptwise_weights := k;
     DecoderBlock.conv_block_weights := S k |}.

Definition decoder_weights : ConvDecoder.params :=
  {| ConvDecoder.dec_block_2_params := decoder_block_weights 0;
     ConvDecoder.dec_block_1_params := decoder_block_weights 2;
     ConvDecoder.dec_block_0_params := decoder_block_weights 4;
     ConvDecoder.conv_out_kernel := 6;
     ConvDecoder.ptwise_logits_kernel := 7 |}.

Definition decoder_names : string * string * string :=
  ("decoder_block", "decoder_block_1", "decoder_block_2").

Definition vae_block_weights (k : nat) : VariationalAutoencoderBlock.params :=
  {| VariationalAutoencoderBlock.ptwise_weights := k;
     VariationalAutoencoderBlock.conv_block_weights := S k |}.

Definition vae_weights : VariationalAutoencoder.params :=
  {| VariationalAutoencoder.groupnorm_VD_weights := 0;
     VariationalAutoencoder.conv3d_VD_kernel := 1;
     VariationalAutoencoder.proj_VD_kernel := 2;
     VariationalAutoencoder.proj_VU_kernel := 3;
     VariationalAutoencoder.conv1d_VU_kernel := 4;
     VariationalAutoencoder.conv_block_2_params := vae_block_weights 5;
     VariationalAutoencoder.conv_block_1_params := vae_block_weights 7;
     VariationalAutoencoder.conv_block_0_params := vae_block_weights 9;
     VariationalAutoencoder.conv_out_kernel := 11 |}.

Definition vae_names : string * string * string :=
  ("variational_autoencoder_block", "variational_autoencoder_block_1",
   "variational_autoencoder_block_2").

Definition decoder_0 : ConvDecoder.t :=
  ConvDecoder.init_default "conv_decoder" decoder_names decoder_weights.

Definition vae_0 : VariationalAutoencoder.t :=
  VariationalAutoencoder.init_default vae_names vae_weights.

(** The bottleneck of a 64-voxel cube, one batch element, channels last. *)
Definition bottleneck_0 : Tensor := input_tensor 0 [1; 8; 8; 8; 256].

(** * Properties *)

(** ** Tensor arithmetic *)

Section tensor_lemmas.
Context `{B : Backend}.

Lemma broadcast_rev_diag (s : list nat) : broadcast_rev s s = Some s.
Proof.
  induction s as [|a s IH]; [done|].
  simpl. rewrite decide_True by done. by rewrite IH.
Qed.

Lemma broadcast_shape_diag (s : list nat) : broadcast_shape s s = Some s.
Proof.
  unfold broadcast_shape. rewrite broadcast_rev_diag. simpl.
  by rewrite reverse_involutive.
Qed.

Lemma broadcast_index_in_range (s idx : list nat) :
  in_range idx s → broadcast_index s idx = idx.
Proof.
  intros Hr. unfold broadcast_index.
  rewrite (Forall2_length _ _ _ Hr), Nat.sub_diag, drop_0.
  induction Hr as [|i d idx s Hlt _ IH]; simpl; [done|].
  rewrite IH. case_decide; f_equal; lia.
Qed.

(** On operands of one shape the element-wise operations act entry by
    entry and keep the shape. *)
Lemma tensor_zip_same_shape (f : scalar → scalar → scalar) (a b : Tensor) :
  shape a = shape b →
  ∃ c, tensor_zip f a b = Ok c ∧ shape c = shape a ∧
       ∀ idx, in_range idx (shape a) → val c idx = f (val a idx) (val b idx).
Proof.
  intros Hs. unfold tensor_zip. rewrite <- Hs, broadcast_shape_diag.
  eexists; split; [done|]. split; [done|].
  intros idx Hr. simpl. by rewrite broadcast_index_in_range.
Qed.

Lemma as_volume_volume_shape (df : DataFormat) (n d1 d2 d3 c : nat) :
  as_volume df (volume_shape df n d1 d2 d3 c) = Some (n, (d1, d2, d3), c).
Proof. by destruct df. Qed.

Lemma as_volume_rank5 (df : DataFormat) (n a b c e : nat) :
  ∃ d1 d2 d3 ch, as_volume df [n; a; b; c; e] = Some (n, (d1, d2, d3), ch).
Proof. destruct df; simpl; eauto. Qed.

Lemma channels_of_volume_shape (df : DataFormat) (n d1 d2 d3 c : nat) :
  channels_of df (volume_shape df n d1 d2 d3 c) = Some c.
Proof. by destruct df. Qed.

Lemma spatial_of_volume_shape (df : DataFormat) (n d1 d2 d3 c : nat) :
  spatial_of df (volume_shape df n d1 d2 d3 c) = Some (d1, d2, d3).
Proof. by destruct df. Qed.

Lemma batch_of_volume_shape (df : DataFormat) (n d1 d2 d3 c : nat) :
  batch_of (volume_shape df n d1 d2 d3 c) = Some n.
Proof. by destruct df. Qed.

Lemma same_extent_1 (d : nat) : same_extent d 1 = d.
Proof. unfold same_extent. rewrite Nat.add_sub. apply Nat.div_1_r. Qed.
End tensor_lemmas.

(** ** The sampling step *)

Section sampling_lemmas.
Context `{B : Backend}.

(** The sampling step on a mean and a log-variance of one shape. *)
Lemma sample_same_shape (z_mean z_logvar : Tensor) (g : rng) :
  shape z_mean = shape z_logvar →
  ∃ z, sample (z_mean, z_logvar) g
         = Ok (z, (normal_draw g (shape z_mean)).2) ∧
       shape z = shape z_mean ∧
       ∀ idx, in_range idx (shape z_mean) →
         val z idx
         = f_add (val z_mean idx)
             (f_mul (f_exp (f_mul f_half (val z_logvar idx)))
                    ((normal_draw g (shape z_mean)).1 idx)).
Proof.
  intros Hs.
  unfold sample, mbind, M_bind, random_normal.
  destruct (normal_draw g (shape z_mean)) as [v g'] eqn:Hdraw. simpl.
  set (e := tensor_exp (scalar_mul f_half z_logvar)).
  set (eps := {| shape := shape z_mean; val := v |}).
  destruct (tensor_zip_same_shape f_mul e eps) as (m & Hm & Hms & Hmv).
  { simpl. by rewrite Hs. }
  destruct (tensor_zip_same_shape f_add z_mean m) as (z & Hz & Hzs & Hzv).
  { rewrite Hms. simpl. by rewrite Hs. }
  exists z. unfold tensor_mul, tensor_add, lift. rewrite Hm. simpl.
  rewrite Hz. split; [done|]. split; [done|].
  intros idx Hr. rewrite Hzv by done. f_equal.
  rewrite Hmv; [done|]. simpl. by rewrite <- Hs.
Qed.

(** C1.  For a mean and a log-variance of one shape and the draw
    [epsilon] that [tf.random.normal] returns for that shape, [sample]
    succeeds, advances the generator by that one draw, and returns the
    tensor of that shape whose every entry is
    [mean + exp(0.5 * log_variance) * epsilon]. *)
Theorem sample_reparameterization (z_mean z_logvar : Tensor) (g : rng)
    (epsilon : list nat → scalar) (g' : rng) :
  shape z_mean = shape z_logvar →
  normal_draw g (shape z_mean) = (epsilon, g') →
  ∃ z, sample (z_mean, z_logvar) g = Ok (z, g') ∧
       shape z = shape z_mean ∧
       ∀ idx, in_range idx (shape z_mean) →
         val z idx
         = f_add (val z_mean idx)
             (f_mul (f_exp (f_mul f_half (val z_logvar idx))) (epsilon idx)).
Proof.
  intros Hs Hdraw.
  destruct (sample_same_shape z_mean z_logvar g Hs) as (z & Hz & Hzs & Hzv).
  rewrite Hdraw in Hz, Hzv. by exists z.
Qed.
End sampling_lemmas.

(** ** The Keras layers on volumes *)

Section layer_lemmas.
Context `{B : Backend}.

Lemma bind_Ok_r {A} (m : result A) : (x ← m; Ok x) = m.
Proof. by destruct m. Qed.

Lemma bind_Ok {A C} (a : A) (f : A → result C) : (Ok a ≫= f) = f a.
Proof. done. Qed.

Lemma shape_apply_activation (a : option ActivationFn) (t : Tensor) :
  shape (apply_activation a t) = shape t.
Proof. by destruct a. Qed.

Lemma Conv3D_linear_volume (l : Conv3D.t) (x : Tensor) n d1 d2 d3 c :
  shape x = volume_shape (Conv3D.data_format l) n d1 d2 d3 c →
  ∃ y, Conv3D.linear l x = Ok y ∧
       val y = conv3d_kernel (Conv3D.kernel l) (Conv3D.filters l)
                 (Conv3D.kernel_size l) (Conv3D.strides l)
                 (Conv3D.data_format l) (shape x) (val x) ∧
       shape y = volume_shape (Conv3D.data_format l) n
                   (same_extent d1 (Conv3D.strides l))
                   (same_extent d2 (Conv3D.strides l))
                   (same_extent d3 (Conv3D.strides l)) (Conv3D.filters l).
Proof.
  intros Hs. unfold Conv3D.linear.
  rewrite Hs, as_volume_volume_shape. eauto.
Qed.

(** With stride 1 a convolution keeps the spatial extent. *)
Lemma Conv3D_call_unit_stride (l : Conv3D.t) (x : Tensor) df n d1 d2 d3 c :
  Conv3D.data_format l = df →
  Conv3D.strides l = 1 →
  shape x = volume_shape df n d1 d2 d3 c →
  ∃ y, Conv3D.linear l x = Ok y ∧
       Conv3D.call l x = Ok (apply_activation (Conv3D.activation l) y) ∧
       shape y = volume_shape df n d1 d2 d3 (Conv3D.filters l).
Proof.
  intros <- Hst Hs.
  destruct (Conv3D_linear_volume l x _ _ _ _ _ Hs) as (y & Hy & _ & Hys).
  rewrite Hst, !same_extent_1 in Hys.
  exists y. unfold Conv3D.call. by rewrite Hy.
Qed.

Lemma Conv3D_call_channels (l : Conv3D.t) (x y : Tensor) :
  Conv3D.call l x = Ok y →
  channels_of (Conv3D.data_format l) (shape y) = Some (Conv3D.filters l).
Proof.
  unfold Conv3D.call, Conv3D.linear.
  destruct (as_volume _ (shape x)) as [[[n [[d1 d2] d3]] c]|]; [|done].
  unfold mbind, result_bind. intros [= <-].
  rewrite shape_apply_activation. apply channels_of_volume_shape.
Qed.

Lemma UpSampling3D_call_volume (l : UpSampling3D.t) (x : Tensor) n d1 d2 d3 c :
  shape x = volume_shape (UpSampling3D.data_format l) n d1 d2 d3 c →
  ∃ y, UpSampling3D.call l x = Ok y ∧
       shape y = volume_shape (UpSampling3D.data_format l) n
                   (UpSampling3D.size l * d1) (UpSampling3D.size l * d2)
                   (UpSampling3D.size l * d3) c ∧
       ∀ idx, val y idx = val x (UpSampling3D.source_index l idx).
Proof.
  intros Hs. unfold UpSampling3D.call.
  rewrite Hs, as_volume_volume_shape. eauto.
Qed.

Lemma ConvBlock_call_volume (l : ConvBlock.t) (x : Tensor) n d1 d2 d3 c :
  shape x = volume_shape (ConvBlock.data_format l) n d1 d2 d3 c →
  ∃ y, ConvBlock.call l x = Ok y ∧
       shape y = volume_shape (ConvBlock.data_format l) n d1 d2 d3
                   (ConvBlock.filters l).
Proof.
  intros Hs. unfold ConvBlock.call.
  rewrite Hs, as_volume_volume_shape. eauto.
Qed.

Lemma ConvBlock_call_channels (l : ConvBlock.t) (x y : Tensor) :
  ConvBlock.call l x = Ok y →
  channels_of (ConvBlock.data_format l) (shape y)
  = Some (ConvBlock.filters l).
Proof.
  unfold ConvBlock.call.
  destruct (as_volume _ (shape x)) as [[[n [[d1 d2] d3]] c]|]; [|done].
  intros [= <-]. apply channels_of_volume_shape.
Qed.

Lemma Add_call_same_shape (l : Add.t) (a b : Tensor) :
  shape a = shape b →
  ∃ y, Add.call l (a, b) = Ok y ∧ shape y = shape b ∧
       ∀ idx, in_range idx (shape b) →
         val y idx = f_add (val a idx) (val b idx).
Proof.
  intros Hs. unfold Add.call, rank.
  rewrite Hs, !decide_True by done.
  destruct (tensor_zip_same_shape f_add a b Hs) as (y & Hy & Hys & Hyv).
  exists y. rewrite <- Hs. eauto.
Qed.
End layer_lemmas.

(** ** DecoderBlock *)

Section decoder_block.
Context `{B : Backend}.
Import DecoderBlock.

Variables (name : string) (filters kernel_size : nat) (df : DataFormat).
Variables (groups reduction : nat) (kernel_regularizer : option regularizer).
Variables (kernel_initializer : Initializer) (use_se : bool) (θ : params).

Let self : t :=
  init name filters kernel_size df groups reduction kernel_regularizer
    kernel_initializer use_se θ.

(** The four stages on a feature volume and a residual of the shape the
    upsampled features have. *)
Lemma DecoderBlock_call_run (features enc_res : Tensor) n d1 d2 d3 c :
  shape features = volume_shape df n d1 d2 d3 c →
  shape enc_res = volume_shape df n (2 * d1) (2 * d2) (2 * d3) filters →
  ∃ p u a out,
    Conv3D.call (conv3d_ptwise self) features = Ok p ∧
    shape p = volume_shape df n d1 d2 d3 filters ∧
    UpSampling3D.call (upsample self) p = Ok u ∧
    shape u = volume_shape df n (2 * d1) (2 * d2) (2 * d3) filters ∧
    (∀ idx, val u idx = val p (UpSampling3D.source_index (upsample self) idx)) ∧
    Add.call (residual self) (u, enc_res) = Ok a ∧
    shape a = shape enc_res ∧
    (∀ idx, in_range idx (shape enc_res) →
       val a idx = f_add (val u idx) (val enc_res idx)) ∧
    ConvBlock.call (conv_block self) a = Ok out ∧
    call self (features, enc_res) = Ok out ∧
    shape out = volume_shape df n (2 * d1) (2 * d2) (2 * d3) filters.
Proof.
  intros Hx Hr.
  destruct (Conv3D_call_unit_stride (conv3d_ptwise self) features
              df n d1 d2 d3 c eq_refl eq_refl Hx) as (p & _ & Hp & Hps).
  change (apply_activation _ p) with p in Hp.
  change (Conv3D.filters _) with filters in Hps.
  destruct (UpSampling3D_call_volume (upsample self) p n d1 d2 d3 filters Hps)
    as (u & Hu & Hus & Huv).
  change (shape u = volume_shape df n (2 * d1) (2 * d2) (2 * d3) filters)
    in Hus.
  destruct (Add_call_same_shape (residual self) u enc_res)
    as (a & Ha & Has & Hav); [by rewrite Hus, Hr|].
  destruct (ConvBlock_call_volume (conv_block self) a n
              (2 * d1) (2 * d2) (2 * d3) filters) as (out & Ho & Hos);
    [by rewrite Has, Hr|].
  exists p, u, a, out. repeat split; try done.
  unfold call. cbv beta iota.
  by rewrite Hp, bind_Ok, Hu, bind_Ok, Ha, bind_Ok, Ho.
Qed.

Lemma DecoderBlock_call_channels (features enc_res out : Tensor) :
  call self (features, enc_res) = Ok out →
  channels_of df (shape out) = Some filters.
Proof.
  unfold call. cbv beta iota.
  destruct (Conv3D.call _ features) as [p|]; [rewrite bind_Ok|done].
  destruct (UpSampling3D.call _ p) as [u|]; [rewrite bind_Ok|done].
  destruct (Add.call _ (u, enc_res)) as [a|]; [rewrite bind_Ok|done].
  rewrite bind_Ok_r. apply ConvBlock_call_channels.
Qed.

(** C5.  A decoder block runs its four stages in one fixed order: the
    pointwise convolution (kernel size 1, [filters] channels, no
    activation) on the features, the upsampling by 2, the addition of the
    encoder residual, the convolutional block.  Whatever it returns has
    [filters] channels; on a feature volume and a residual of the
    upsampled shape every stage succeeds, the upsampling doubles each
    spatial axis by repeating voxels, and the addition is entry by
    entry. *)
Theorem DecoderBlock_call_pipeline (features enc_res : Tensor) :
  call self (features, enc_res)
  = (p ← Conv3D.call (conv3d_ptwise self) features;
     u ← UpSampling3D.call (upsample self) p;
     a ← Add.call (residual self) (u, enc_res);
     ConvBlock.call (conv_block self) a) ∧
  Conv3D.kernel_size (conv3d_ptwise self) = 1 ∧
  Conv3D.filters (conv3d_ptwise self) = filters ∧
  Conv3D.activation (conv3d_ptwise self) = None ∧
  UpSampling3D.size (upsample self) = 2 ∧
  ConvBlock.filters (conv_block self) = filters ∧
  (∀ out, call self (features, enc_res) = Ok out →
     channels_of df (shape out) = Some filters) ∧
  (∀ n d1 d2 d3 c,
     shape features = volume_shape df n d1 d2 d3 c →
     shape enc_res = volume_shape df n (2 * d1) (2 * d2) (2 * d3) filters →
     ∃ p u a out,
       Conv3D.call (conv3d_ptwise self) features = Ok p ∧
       shape p = volume_shape df n d1 d2 d3 filters ∧
       UpSampling3D.call (upsample self) p = Ok u ∧
       shape u = volume_shape df n (2 * d1) (2 * d2) (2 * d3) filters ∧
       (∀ b i j k ch,
          val u (volume_shape df b i j k ch)
          = val p (volume_shape df b (i / 2) (j / 2) (k / 2) ch)) ∧
       Add.call (residual self) (u, enc_res) = Ok a ∧
       shape a = shape enc_res ∧
       (∀ idx, in_range idx (shape enc_res) →
          val a idx = f_add (val u idx) (val enc_res idx)) ∧
       ConvBlock.call (conv_block self) a = Ok out ∧
       call self (features, enc_res) = Ok out ∧
       shape out = volume_shape df n (2 * d1) (2 * d2) (2 * d3) filters).
Proof.
  split.
  { unfold call. cbv beta iota.
    destruct (Conv3D.call _ features) as [p|]; [rewrite !bind_Ok|done].
    destruct (UpSampling3D.call _ p) as [u|]; [rewrite !bind_Ok|done].
    destruct (Add.call _ (u, enc_res)) as [a|]; [rewrite !bind_Ok|done].
    apply bind_Ok_r. }
  do 5 (split; [done|]).
  split; [intros out; apply DecoderBlock_call_channels|].
  intros n d1 d2 d3 c Hx Hr.
  destruct (DecoderBlock_call_run features enc_res n d1 d2 d3 c Hx Hr)
    as (p & u & a & out & Hp & Hps & Hu & Hus & Huv & Ha & Has & Hav & Ho & Hc & Hos).
  exists p, u, a, out. repeat split; try done.
  intros b i j k ch. rewrite Huv. by destruct df.
Qed.
End decoder_block.

(** ** ConvDecoder *)

Section conv_decoder.
Context `{B : Backend} `{K : Constants}.
Import ConvDecoder.

Variables (name : string) (names : string * string * string).
Variables (df : DataFormat) (kernel_size groups reduction : nat).
Variables (kernel_regularizer : option regularizer).
Variables (kernel_initializer : Initializer) (use_se : bool) (θ : params).

Let self : t :=
  init name names df kernel_size groups reduction kernel_regularizer
    kernel_initializer use_se θ.

Lemma dec_block_2_eq :
  dec_block_2 self
  = DecoderBlock.init names.1.1 DEC_CONV_BLOCK2_SIZE kernel_size df groups
      reduction kernel_regularizer kernel_initializer use_se
      (dec_block_2_params θ).
Proof. unfold self, init. by destruct names as [[??]?]. Qed.

Lemma dec_block_1_eq :
  dec_block_1 self
  = DecoderBlock.init names.1.2 DEC_CONV_BLOCK1_SIZE kernel_size df groups
      reduction kernel_regularizer kernel_initializer use_se
      (dec_block_1_params θ).
Proof. unfold self, init. by destruct names as [[??]?]. Qed.

Lemma dec_block_0_eq :
  dec_block_0 self
  = DecoderBlock.init names.2 DEC_CONV_BLOCK0_SIZE kernel_size df groups
      reduction kernel_regularizer kernel_initializer use_se
      (dec_block_0_params θ).
Proof. unfold self, init. by destruct names as [[??]?]. Qed.

Lemma conv_out_eq :
  conv_out self
  = {| Conv3D.filters := DEC_CONV_LAYER_SIZE;
       Conv3D.kernel_size := kernel_size;
       Conv3D.strides := 1;
       Conv3D.data_format := df;
       Conv3D.kernel_initializer := kernel_initializer;
       Conv3D.kernel_regularizer := kernel_regularizer;
       Conv3D.activation := None;
       Conv3D.kernel := conv_out_kernel θ |}.
Proof. unfold self, init. by destruct names as [[??]?]. Qed.

Lemma ptwise_logits_eq :
  ptwise_logits self
  = {| Conv3D.filters := OUT_CH - 1;
       Conv3D.kernel_size := 1;
       Conv3D.strides := 1;
       Conv3D.data_format := df;
       Conv3D.kernel_initializer := kernel_initializer;
       Conv3D.kernel_regularizer := kernel_regularizer;
       Conv3D.activation := Some act_sigmoid;
       Conv3D.kernel := ptwise_logits_kernel θ |}.
Proof. unfold self, init. by destruct names as [[??]?]. Qed.

(** The run of the decoder on a bottleneck and three residuals, each of
    twice the extent of the level below it. *)
Lemma ConvDecoder_call_run (enc_out_0 enc_out_1 enc_out_2 x : Tensor)
    n d1 d2 d3 c :
  shape x = volume_shape df n d1 d2 d3 c →
  shape enc_out_2
    = volume_shape df n (2 * d1) (2 * d2) (2 * d3) DEC_CONV_BLOCK2_SIZE →
  shape enc_out_1
    = volume_shape df n (4 * d1) (4 * d2) (4 * d3) DEC_CONV_BLOCK1_SIZE →
  shape enc_out_0
    = volume_shape df n (8 * d1) (8 * d2) (8 * d3) DEC_CONV_BLOCK0_SIZE →
  ∃ x2 x1 x0 y logits,
    DecoderBlock.call (dec_block_2 self) (x, enc_out_2) = Ok x2 ∧
    DecoderBlock.call (dec_block_1 self) (x2, enc_out_1) = Ok x1 ∧
    DecoderBlock.call (dec_block_0 self) (x1, enc_out_0) = Ok x0 ∧
    Conv3D.call (conv_out self) x0 = Ok y ∧
    Conv3D.linear (ptwise_logits self) y = Ok logits ∧
    call self (enc_out_0, enc_out_1, enc_out_2, x)
      = Ok (tensor_map f_sigmoid logits) ∧
    shape logits
      = volume_shape df n (8 * d1) (8 * d2) (8 * d3) (OUT_CH - 1).
Proof.
  intros Hx H2 H1 H0.
  replace (4 * d1) with (2 * (2 * d1)) in H1 by lia.
  replace (4 * d2) with (2 * (2 * d2)) in H1 by lia.
  replace (4 * d3) with (2 * (2 * d3)) in H1 by lia.
  replace (8 * d1) with (2 * (2 * (2 * d1))) in * by lia.
  replace (8 * d2) with (2 * (2 * (2 * d2))) in * by lia.
  replace (8 * d3) with (2 * (2 * (2 * d3))) in * by lia.
  unfold call. cbv beta iota.
  rewrite dec_block_2_eq, dec_block_1_eq, dec_block_0_eq.
  edestruct (DecoderBlock_call_run names.1.1 DEC_CONV_BLOCK2_SIZE) as
    (_ & _ & _ & x2 & _ & _ & _ & _ & _ & _ & _ & _ & _ & Hc2 & Hs2);
    [exact Hx|exact H2|].
  edestruct (DecoderBlock_call_run names.1.2 DEC_CONV_BLOCK1_SIZE) as
    (_ & _ & _ & x1 & _ & _ & _ & _ & _ & _ & _ & _ & _ & Hc1 & Hs1);
    [exact Hs2|exact H1|].
  edestruct (DecoderBlock_call_run names.2 DEC_CONV_BLOCK0_SIZE) as
    (_ & _ & _ & x0 & _ & _ & _ & _ & _ & _ & _ & _ & _ & Hc0 & Hs0);
    [exact Hs1|exact H0|].
  destruct (Conv3D_call_unit_stride (conv_out self) x0 df _ _ _ _ _
              ltac:(by rewrite conv_out_eq) ltac:(by rewrite conv_out_eq) Hs0)
    as (y & _ & Hy & Hys).
  rewrite conv_out_eq in Hy, Hys. simpl in Hy, Hys.
  destruct (Conv3D_call_unit_stride (ptwise_logits self) y df _ _ _ _ _
              ltac:(by rewrite ptwise_logits_eq)
              ltac:(by rewrite ptwise_logits_eq) Hys)
    as (logits & Hl & Hlc & Hls).
  exists x2, x1, x0, y, logits.
  rewrite Hc2, bind_Ok, Hc1, bind_Ok, Hc0, bind_Ok.
  rewrite conv_out_eq, Hy, bind_Ok, bind_Ok_r, Hlc.
  do 5 (split; [done|]).
  split; [by rewrite ptwise_logits_eq|].
  by rewrite Hls, ptwise_logits_eq.
Qed.

(** C2.  The decoder runs the block of the coarsest residual, then the
    block of the middle one, then the block of the finest one, then the
    feature convolution, then the pointwise convolution (kernel size 1)
    with its sigmoid.  Whatever it returns has [OUT_CH - 1] channels; on a
    bottleneck and three residuals of matching shapes every stage
    succeeds and the output has the batch size and the spatial extent of
    the finest residual, which is that of the encoder's input. *)
Theorem ConvDecoder_call_pipeline (enc_out_0 enc_out_1 enc_out_2 x : Tensor) :
  0 < OUT_CH →
  call self (enc_out_0, enc_out_1, enc_out_2, x)
  = (x2 ← DecoderBlock.call (dec_block_2 self) (x, enc_out_2);
     x1 ← DecoderBlock.call (dec_block_1 self) (x2, enc_out_1);
     x0 ← DecoderBlock.call (dec_block_0 self) (x1, enc_out_0);
     y ← Conv3D.call (conv_out self) x0;
     Conv3D.call (ptwise_logits self) y) ∧
  Conv3D.kernel_size (conv_out self) = kernel_size ∧
  Conv3D.kernel_size (ptwise_logits self) = 1 ∧
  Conv3D.activation (ptwise_logits self) = Some act_sigmoid ∧
  (∀ out, call self (enc_out_0, enc_out_1, enc_out_2, x) = Ok out →
     ∃ ch, channels_of df (shape out) = Some ch ∧
           Z.of_nat ch = (Z.of_nat OUT_CH - 1)%Z) ∧
  (∀ n d1 d2 d3 c,
     shape x = volume_shape df n d1 d2 d3 c →
     shape enc_out_2
       = volume_shape df n (2 * d1) (2 * d2) (2 * d3) DEC_CONV_BLOCK2_SIZE →
     shape enc_out_1
       = volume_shape df n (4 * d1) (4 * d2) (4 * d3) DEC_CONV_BLOCK1_SIZE →
     shape enc_out_0
       = volume_shape df n (8 * d1) (8 * d2) (8 * d3) DEC_CONV_BLOCK0_SIZE →
     ∃ x2 x1 x0 y logits out,
       DecoderBlock.call (dec_block_2 self) (x, enc_out_2) = Ok x2 ∧
       DecoderBlock.call (dec_block_1 self) (x2, enc_out_1) = Ok x1 ∧
       DecoderBlock.call (dec_block_0 self) (x1, enc_out_0) = Ok x0 ∧
       Conv3D.call (conv_out self) x0 = Ok y ∧
       Conv3D.linear (ptwise_logits self) y = Ok logits ∧
       (∀ idx, val out idx = f_sigmoid (val logits idx)) ∧
       call self (enc_out_0, enc_out_1, enc_out_2, x) = Ok out ∧
       batch_of (shape out) = batch_of (shape enc_out_0) ∧
       spatial_of df (shape out) = spatial_of df (shape enc_out_0) ∧
       spatial_of df (shape out) = Some (8 * d1, 8 * d2, 8 * d3)).
Proof.
  intros Hpos. split.
  { unfold call. cbv beta iota.
    destruct (DecoderBlock.call _ (x, enc_out_2)) as [x2|];
      [rewrite !bind_Ok|done].
    destruct (DecoderBlock.call _ (x2, enc_out_1)) as [x1|];
      [rewrite !bind_Ok|done].
    destruct (DecoderBlock.call _ (x1, enc_out_0)) as [x0|];
      [rewrite !bind_Ok|done].
    destruct (Conv3D.call (conv_out self) x0) as [y|];
      [rewrite !bind_Ok|done].
    apply bind_Ok_r. }
  split; [by rewrite conv_out_eq|].
  split; [by rewrite ptwise_logits_eq|].
  split; [by rewrite ptwise_logits_eq|].
  split.
  { intros out. unfold call. cbv beta iota.
    destruct (DecoderBlock.call _ (x, enc_out_2)) as [x2|];
      [rewrite !bind_Ok|done].
    destruct (DecoderBlock.call _ (x2, enc_out_1)) as [x1|];
      [rewrite !bind_Ok|done].
    destruct (DecoderBlock.call _ (x1, enc_out_0)) as [x0|];
      [rewrite !bind_Ok|done].
    destruct (Conv3D.call (conv_out self) x0) as [y|];
      [rewrite !bind_Ok|done].
    rewrite bind_Ok_r. intros Hout%Conv3D_call_channels.
    rewrite ptwise_logits_eq in Hout. simpl in Hout.
    exists (OUT_CH - 1). split; [done|lia]. }
  intros n d1 d2 d3 c Hx H2 H1 H0.
  destruct (ConvDecoder_call_run _ _ _ _ _ _ _ _ _ Hx H2 H1 H0)
    as (x2 & x1 & x0 & y & logits & Hc2 & Hc1 & Hc0 & Hy & Hl & Hc & Hls).
  exists x2, x1, x0, y, logits, (tensor_map f_sigmoid logits).
  do 5 (split; [done|]). split; [done|]. split; [done|].
  simpl. rewrite Hls, H0.
  by rewrite !batch_of_volume_shape, !spatial_of_volume_shape.
Qed.
End conv_decoder.

(** ** VariationalAutoencoderBlock *)

Section variational_autoencoder_block.
Context `{B : Backend}.
Import VariationalAutoencoderBlock.

Lemma VariationalAutoencoderBlock_call_volume
    (name : string) (filters kernel_size : nat) (df : DataFormat)
    (groups : nat) (kernel_regularizer : option regularizer) (θ : params)
    (x : Tensor) n d1 d2 d3 c :
  shape x = volume_shape df n d1 d2 d3 c →
  ∃ y, call (init name filters kernel_size df groups kernel_regularizer θ) x
         = Ok y ∧
       shape y = volume_shape df n (2 * d1) (2 * d2) (2 * d3) filters.
Proof.
  intros Hx.
  set (self := init name filters kernel_size df groups kernel_regularizer θ).
  destruct (Conv3D_call_unit_stride (conv3d_ptwise self) x
              df n d1 d2 d3 c eq_refl eq_refl Hx) as (p & _ & Hp & Hps).
  change (apply_activation _ p) with p in Hp.
  change (Conv3D.filters _) with filters in Hps.
  destruct (UpSampling3D_call_volume (upsample self) p n d1 d2 d3 filters Hps)
    as (u & Hu & Hus & _).
  change (shape u = volume_shape df n (2 * d1) (2 * d2) (2 * d3) filters)
    in Hus.
  destruct (ConvBlock_call_volume (conv_block self) u n
              (2 * d1) (2 * d2) (2 * d3) filters Hus) as (y & Hy & Hys).
  exists y. split; [|done].
  unfold call. by rewrite Hp, bind_Ok, Hu, bind_Ok, Hy.
Qed.
End variational_autoencoder_block.

(** ** VariationalAutoencoder *)

Section variational_autoencoder.
Context `{B : Backend} `{K : Constants}.
Import VariationalAutoencoder.

Variables (name2 name1 name0 : string).
Variables (df : DataFormat) (groups kernel_size : nat).
Variables (kernel_regularizer : option regularizer) (θ : params).

Let self : t :=
  init (name2, name1, name0) df groups kernel_size kernel_regularizer θ.

Lemma M_bind_lift_Ok {A C} (a : A) (f : A → M C) (g : rng) :
  (lift (Ok a) ≫= f) g = f a g.
Proof. done. Qed.

(** The forward pass is its blocks, one after the other. *)
Lemma VariationalAutoencoder_call_blocks (x : Tensor) (g : rng) :
  call self x g
  = (proj ← lift (VD_block self x);
     z_mean ← lift (slice_to VAE_LATENT_SIZE proj);
     z_logvar ← lift (slice_from VAE_LATENT_SIZE proj);
     z ← sample (z_mean, z_logvar);
     recon ← lift (decode self z);
     mret (recon, z_mean, z_logvar)) g.
Proof.
  unfold call, VD_block, decode, VU_block, VUp_blocks, Lambda.call.
  change (Lambda.function (sample_ self)) with sample.
  unfold mbind, M_bind, result_bind, lift, mret, M_ret.
  repeat match goal with
  | |- context [match ?r with Ok _ => _ | Raise _ => _ end] =>
      lazymatch r with
      | context [match _ with Ok _ => _ | Raise _ => _ end] => fail
      | _ => destruct r as [[??]|?] || destruct r as [?|?]; try done
      end
  end.
Qed.

(** The VD block on a volume: a vector of [VAE_VD_BLOCK_SIZE] entries per
    batch element. *)
Lemma VD_block_run (x : Tensor) n a b c e :
  shape x = [n; a; b; c; e] →
  ∃ proj, VD_block self x = Ok proj ∧
          shape proj = [n; VAE_VD_BLOCK_SIZE].
Proof.
  intros Hx. unfold VD_block.
  unfold GroupNormalization.call, Activation.call. rewrite !bind_Ok.
  unfold Conv3D.call, Conv3D.linear. cbn [shape tensor_map].
  rewrite Hx.
  destruct (as_volume_rank5 (Conv3D.data_format (conv3d_VD self)) n a b c e)
    as (d1 & d2 & d3 & ch & ->).
  rewrite !bind_Ok. cbn [apply_activation Conv3D.activation conv3d_VD self init].
  unfold Flatten.call. cbn [shape Conv3D.data_format].
  destruct df; cbn [volume_shape]; rewrite bind_Ok;
    unfold Dense.call, rank; cbn [shape length];
    (rewrite decide_True by lia); eauto.
Qed.

Lemma slices_run (proj : Tensor) n m k :
  shape proj = [n; m] →
  ∃ z_mean z_logvar,
    slice_to k proj = Ok z_mean ∧ slice_from k proj = Ok z_logvar ∧
    shape z_mean = [n; Nat.min k m] ∧ shape z_logvar = [n; m - k] ∧
    (∀ i j, val z_mean [i; j] = val proj [i; j]) ∧
    (∀ i j, val z_logvar [i; j] = val proj [i; j + k]).
Proof.
  intros Hp. unfold slice_to, slice_from. rewrite Hp.
  do 2 eexists. repeat split; done.
Qed.

(** The VU block on the sampled vector, stage by stage. *)
Lemma VU_block_run (z : Tensor) n m :
  shape z = [n; m] →
  ∃ p r c u,
    Dense.call (proj_VU self) z = Ok p ∧
    shape p = [n; H / 16 * (W / 16) * (D / 16)] ∧
    Activation.call (relu_VU self) p = Ok (tensor_map f_relu p) ∧
    Reshape.call (reshape_VU self) (tensor_map f_relu p) = Ok r ∧
    shape r = [n; H / 16; W / 16; D / 16; 1] ∧
    Conv3D.call (conv1d_VU self) r = Ok c ∧
    shape c = match df with
              | channels_last =>
                  [n; H / 16; W / 16; D / 16; VAE_VU_BLOCK_SIZE]
              | channels_first =>
                  [n; VAE_VU_BLOCK_SIZE; W / 16; D / 16; 1]
              end ∧
    UpSampling3D.call (conv3d_upsample_VU self) c = Ok u ∧
    shape u = match df with
              | channels_last =>
                  [n; 2 * (H / 16); 2 * (W / 16); 2 * (D / 16);
                   VAE_VU_BLOCK_SIZE]
              | channels_first =>
                  [n; VAE_VU_BLOCK_SIZE; 2 * (W / 16); 2 * (D / 16); 2 * 1]
              end ∧
    VU_block self z = Ok u.
Proof.
  intros Hz. unfold VU_block.
  assert (∃ p, Dense.call (proj_VU self) z = Ok p ∧
               shape p = [n; H / 16 * (W / 16) * (D / 16)])
    as (p & Hp & Hps).
  { unfold Dense.call, rank. rewrite Hz. cbn [length].
    rewrite decide_True by lia. eexists; split; [done|].
    cbn [shape Dense.units proj_VU self init].
    by rewrite Nat.mul_1_r. }
  assert (∃ r, Reshape.call (reshape_VU self) (tensor_map f_relu p) = Ok r ∧
               shape r = [n; H / 16; W / 16; D / 16; 1])
    as (r & Hr & Hrs).
  { unfold Reshape.call. cbn [shape tensor_map]. rewrite Hps.
    rewrite decide_True; [eauto|].
    cbn [Reshape.target_shape reshape_VU self init prod_dims foldr]. lia. }
  assert (∃ c, Conv3D.call (conv1d_VU self) r = Ok c ∧
               shape c = match df with
                         | channels_last =>
                             [n; H / 16; W / 16; D / 16; VAE_VU_BLOCK_SIZE]
                         | channels_first =>
                             [n; VAE_VU_BLOCK_SIZE; W / 16; D / 16; 1]
                         end)
    as (c & Hc & Hcs).
  { unfold Conv3D.call, Conv3D.linear. rewrite Hrs.
    cbn [Conv3D.data_format conv1d_VU self init].
    destruct df; cbn [as_volume]; rewrite bind_Ok;
      (eexists; split; [done|]);
      rewrite shape_apply_activation; cbn [shape];
      cbn [Conv3D.strides Conv3D.filters conv1d_VU self init];
      by rewrite !same_extent_1. }
  assert (∃ u, UpSampling3D.call (conv3d_upsample_VU self) c = Ok u ∧
               shape u = match df with
                         | channels_last =>
                             [n; 2 * (H / 16); 2 * (W / 16); 2 * (D / 16);
                              VAE_VU_BLOCK_SIZE]
                         | channels_first =>
                             [n; VAE_VU_BLOCK_SIZE; 2 * (W / 16);
                              2 * (D / 16); 2 * 1]
                         end)
    as (u & Hu & Hus).
  { unfold UpSampling3D.call. rewrite Hcs.
    cbn [UpSampling3D.data_format UpSampling3D.size conv3d_upsample_VU
         self init].
    destruct df; cbn [as_volume]; eauto. }
  assert (Activation.call (relu_VU self) p = Ok (tensor_map f_relu p))
    as Ha by done.
  exists p, r, c, u.
  rewrite Hp, bind_Ok, Ha, bind_Ok, Hr, bind_Ok, Hc, bind_Ok, Hu.
  repeat split; done.
Qed.

(** Everything after the sampling step, on a sampled vector. *)
Lemma decode_run (z : Tensor) n m :
  shape z = [n; m] →
  ∃ u y recon,
    VU_block self z = Ok u ∧
    VUp_blocks self u = Ok y ∧
    Conv3D.linear (conv_out self) y = Ok recon ∧
    decode self z = Ok recon ∧
    channels_of df (shape recon) = Some IN_CH.
Proof.
  intros Hz.
  destruct (VU_block_run z n m Hz)
    as (_ & _ & _ & u & _ & _ & _ & _ & _ & _ & _ & _ & Hus & Hu).
  assert (∃ e1 e2 e3, shape u = volume_shape df n e1 e2 e3 VAE_VU_BLOCK_SIZE)
    as (e1 & e2 & e3 & Hus').
  { rewrite Hus. destruct df; cbn [volume_shape]; eauto. }
  destruct (VariationalAutoencoderBlock_call_volume name2 VAE_CONV_BLOCK2_SIZE
              kernel_size df groups kernel_regularizer (conv_block_2_params θ)
              u _ _ _ _ _ Hus') as (x2 & H2 & H2s).
  destruct (VariationalAutoencoderBlock_call_volume name1 VAE_CONV_BLOCK1_SIZE
              kernel_size df groups kernel_regularizer (conv_block_1_params θ)
              x2 _ _ _ _ _ H2s) as (x1 & H1 & H1s).
  destruct (VariationalAutoencoderBlock_call_volume name0 VAE_CONV_BLOCK0_SIZE
              kernel_size df groups kernel_regularizer (conv_block_0_params θ)
              x1 _ _ _ _ _ H1s) as (y & H0 & H0s).
  destruct (Conv3D_call_unit_stride (conv_out self) y df _ _ _ _ _
              eq_refl eq_refl H0s) as (recon & Hl & Hc & Hrs).
  change (apply_activation _ recon) with recon in Hc.
  change (Conv3D.filters _) with IN_CH in Hrs.
  assert (VUp_blocks self u = Ok y) as Hup.
  { unfold VUp_blocks.
    change (conv_block_2 self) with
      (VariationalAutoencoderBlock.init name2 VAE_CONV_BLOCK2_SIZE
         kernel_size df groups kernel_regularizer (conv_block_2_params θ)).
    change (conv_block_1 self) with
      (VariationalAutoencoderBlock.init name1 VAE_CONV_BLOCK1_SIZE
         kernel_size df groups kernel_regularizer (conv_block_1_params θ)).
    change (conv_block_0 self) with
      (VariationalAutoencoderBlock.init name0 VAE_CONV_BLOCK0_SIZE
         kernel_size df groups kernel_regularizer (conv_block_0_params θ)).
    by rewrite H2, bind_Ok, H1, bind_Ok, H0. }
  exists u, y, recon. do 3 (split; [done|]). split.
  - unfold decode. by rewrite Hu, bind_Ok, Hup, bind_Ok.
  - rewrite Hrs. apply channels_of_volume_shape.
Qed.

(** Whatever is decoded came out of the last convolution. *)
Lemma decode_inv (z recon : Tensor) :
  decode self z = Ok recon →
  ∃ u y,
    VU_block self z = Ok u ∧
    VUp_blocks self u = Ok y ∧
    Conv3D.linear (conv_out self) y = Ok recon ∧
    channels_of df (shape recon) = Some IN_CH.
Proof.
  unfold decode.
  destruct (VU_block self z) as [u|] eqn:Hu; [rewrite bind_Ok|done].
  destruct (VUp_blocks self u) as [y|] eqn:Hy; [rewrite bind_Ok|done].
  intros Hc. exists u, y. do 2 (split; [done|]).
  split; [|exact (Conv3D_call_channels _ _ _ Hc)].
  unfold Conv3D.call in Hc.
  destruct (Conv3D.linear (conv_out self) y) as [r|]; [|done].
  by rewrite bind_Ok in Hc.
Qed.

(** A run of the forward pass on a volume, when the dense projection of
    the VD block has twice the latent size. *)
Lemma VariationalAutoencoder_call_run (x : Tensor) (g : rng) n a b c e :
  VAE_VD_BLOCK_SIZE = 2 * VAE_LATENT_SIZE →
  shape x = [n; a; b; c; e] →
  ∃ proj z_mean z_logvar z recon,
    VD_block self x = Ok proj ∧
    shape proj = [n; 2 * VAE_LATENT_SIZE] ∧
    slice_to VAE_LATENT_SIZE proj = Ok z_mean ∧
    slice_from VAE_LATENT_SIZE proj = Ok z_logvar ∧
    shape z_mean = [n; VAE_LATENT_SIZE] ∧
    shape z_logvar = [n; VAE_LATENT_SIZE] ∧
    (∀ i j, val z_mean [i; j] = val proj [i; j]) ∧
    (∀ i j, val z_logvar [i; j] = val proj [i; j + VAE_LATENT_SIZE]) ∧
    sample (z_mean, z_logvar) g
      = Ok (z, (normal_draw g [n; VAE_LATENT_SIZE]).2) ∧
    shape z = [n; VAE_LATENT_SIZE] ∧
    decode self z = Ok recon ∧
    call self x g
      = Ok (recon, z_mean, z_logvar,
            (normal_draw g [n; VAE_LATENT_SIZE]).2).
Proof.
  intros HK Hx.
  destruct (VD_block_run x n a b c e Hx) as (proj & Hproj & Hps).
  rewrite HK in Hps.
  destruct (slices_run proj n _ VAE_LATENT_SIZE Hps)
    as (z_mean & z_logvar & Hm & Hl & Hms & Hls & Hmv & Hlv).
  replace (Nat.min _ _) with VAE_LATENT_SIZE in Hms by lia.
  replace (2 * VAE_LATENT_SIZE - VAE_LATENT_SIZE) with VAE_LATENT_SIZE
    in Hls by lia.
  destruct (sample_same_shape z_mean z_logvar g) as (z & Hz & Hzs & _);
    [congruence|].
  rewrite Hms in Hz, Hzs.
  destruct (decode_run z n VAE_LATENT_SIZE Hzs)
    as (_ & _ & recon & _ & _ & _ & Hd & _).
  exists proj, z_mean, z_logvar, z, recon.
  do 11 (split; [done|]).
  rewrite VariationalAutoencoder_call_blocks, Hproj, M_bind_lift_Ok, Hm, M_bind_lift_Ok,
    Hl, M_bind_lift_Ok.
  unfold mbind at 1, M_bind at 1. rewrite Hz.
  by rewrite Hd, M_bind_lift_Ok.
Qed.

(** Whatever a run returns was computed block by block. *)
Lemma VariationalAutoencoder_call_inv (x : Tensor) (g g' : rng) (recon z_mean z_logvar : Tensor) :
  call self x g = Ok (recon, z_mean, z_logvar, g') →
  ∃ proj z,
    VD_block self x = Ok proj ∧
    slice_to VAE_LATENT_SIZE proj = Ok z_mean ∧
    slice_from VAE_LATENT_SIZE proj = Ok z_logvar ∧
    sample (z_mean, z_logvar) g = Ok (z, g') ∧
    decode self z = Ok recon.
Proof.
  rewrite VariationalAutoencoder_call_blocks.
  destruct (VD_block self x) as [proj|] eqn:Hproj;
    [rewrite M_bind_lift_Ok|done].
  destruct (slice_to _ proj) as [zm|] eqn:Hm; [rewrite M_bind_lift_Ok|done].
  destruct (slice_from _ proj) as [zl|] eqn:Hl; [rewrite M_bind_lift_Ok|done].
  unfold mbind at 1, M_bind at 1.
  destruct (sample (zm, zl) g) as [[z g1]|] eqn:Hz; [|done].
  destruct (decode self z) as [r|] eqn:Hd; [rewrite M_bind_lift_Ok|done].
  unfold mret, M_ret. intros ?; simplify_eq. by exists proj, z.
Qed.

(** C3.  When the dense projection of the VD block has twice the latent
    size, as the spec has it, the block turns a volume into a vector of
    [2 * VAE_LATENT_SIZE] entries per batch element, the returned mean is
    its first [VAE_LATENT_SIZE] entries and the returned log-variance the
    [VAE_LATENT_SIZE] entries after them, each of shape
    [(batch, VAE_LATENT_SIZE)]. *)
Theorem VariationalAutoencoder_latent_split (x : Tensor) (g : rng) n a b c e :
  VAE_VD_BLOCK_SIZE = 2 * VAE_LATENT_SIZE →
  shape x = [n; a; b; c; e] →
  ∃ proj recon z_mean z_logvar g',
    VD_block self x = Ok proj ∧
    Dense.units (proj_VD self) = 2 * VAE_LATENT_SIZE ∧
    shape proj = [n; 2 * VAE_LATENT_SIZE] ∧
    call self x g = Ok (recon, z_mean, z_logvar, g') ∧
    shape z_mean = [n; VAE_LATENT_SIZE] ∧
    shape z_logvar = [n; VAE_LATENT_SIZE] ∧
    (∀ i j, val z_mean [i; j] = val proj [i; j]) ∧
    (∀ i j, val z_logvar [i; j] = val proj [i; VAE_LATENT_SIZE + j]).
Proof.
  intros HK Hx.
  destruct (VariationalAutoencoder_call_run x g n a b c e HK Hx)
    as (proj & z_mean & z_logvar & z & recon & Hproj & Hps & _ & _ & Hms
        & Hls & Hmv & Hlv & _ & _ & _ & Hcall).
  exists proj, recon, z_mean, z_logvar. eexists.
  do 7 (split; [done|]).
  intros i j. by rewrite Hlv, Nat.add_comm.
Qed.

(** C4, amended.  The VU block projects the sampled vector to [h*w*d]
    values, where [h], [w], [d] are the configured extents [H], [W], [D]
    each divided by 16 (rounded down), applies the rectifier, reshapes to
    [(h, w, d, 1)], applies a convolution of kernel size 1 with
    [VAE_VU_BLOCK_SIZE] filters and upsamples by 2; with the channels last
    this is a one-channel volume whose channels are expanded and whose
    spatial extent is doubled. *)
Theorem VariationalAutoencoder_VU_block (z : Tensor) n m :
  shape z = [n; m] →
  ∃ p r c u,
    Dense.call (proj_VU self) z = Ok p ∧
    shape p = [n; H / 16 * (W / 16) * (D / 16)] ∧
    Activation.call (relu_VU self) p = Ok (tensor_map f_relu p) ∧
    Reshape.call (reshape_VU self) (tensor_map f_relu p) = Ok r ∧
    shape r = [n; H / 16; W / 16; D / 16; 1] ∧
    Conv3D.call (conv1d_VU self) r = Ok c ∧
    Conv3D.kernel_size (conv1d_VU self) = 1 ∧
    Conv3D.filters (conv1d_VU self) = VAE_VU_BLOCK_SIZE ∧
    UpSampling3D.call (conv3d_upsample_VU self) c = Ok u ∧
    UpSampling3D.size (conv3d_upsample_VU self) = 2 ∧
    VU_block self z = Ok u ∧
    (df = channels_last →
     shape c = [n; H / 16; W / 16; D / 16; VAE_VU_BLOCK_SIZE] ∧
     shape u = [n; 2 * (H / 16); 2 * (W / 16); 2 * (D / 16);
                VAE_VU_BLOCK_SIZE]).
Proof.
  intros Hz.
  destruct (VU_block_run z n m Hz)
    as (p & r & c & u & Hp & Hps & Ha & Hr & Hrs & Hc & Hcs & Hu & Hus & Hvu).
  exists p, r, c, u. do 11 (split; [done|]).
  intros ->. by rewrite Hcs, Hus.
Qed.

(** C6.  The autoencoder returns the triple of the reconstruction, the
    mean and the log-variance.  The reconstruction is the output of the
    last convolution, which has no activation and [IN_CH] filters whatever
    the layout, the groups, the kernel size and the regularizer are, so it
    has [IN_CH] channels; and on every volume a run does return, when the
    dense projection of the VD block has twice the latent size. *)
Theorem VariationalAutoencoder_call_outputs (x : Tensor) (g : rng) :
  Conv3D.activation (conv_out self) = None ∧
  Conv3D.filters (conv_out self) = IN_CH ∧
  (∀ recon z_mean z_logvar g',
     call self x g = Ok (recon, z_mean, z_logvar, g') →
     ∃ z u y,
       sample (z_mean, z_logvar) g = Ok (z, g') ∧
       VU_block self z = Ok u ∧
       VUp_blocks self u = Ok y ∧
       Conv3D.linear (conv_out self) y = Ok recon ∧
       channels_of df (shape recon) = Some IN_CH) ∧
  (VAE_VD_BLOCK_SIZE = 2 * VAE_LATENT_SIZE →
   ∀ n a b c e,
     shape x = [n; a; b; c; e] →
     ∃ recon z_mean z_logvar g',
       call self x g = Ok (recon, z_mean, z_logvar, g')).
Proof.
  do 2 (split; [done|]). split.
  - intros recon z_mean z_logvar g'
      (proj & z & _ & _ & _ & Hz & Hd)%VariationalAutoencoder_call_inv.
    destruct (decode_inv z recon Hd) as (u & y & Hu & Hy & Hl & Hch).
    by exists z, u, y.
  - intros HK n a b c e Hx.
    destruct (VariationalAutoencoder_call_run x g n a b c e HK Hx)
      as (proj & z_mean & z_logvar & z & recon & _ & _ & _ & _ & _
          & _ & _ & _ & _ & _ & _ & Hcall).
    by exists recon, z_mean, z_logvar,
      (normal_draw g [n; VAE_LATENT_SIZE]).2.
Qed.

(** C10.  The mean and the log-variance a run returns are the two slices
    of the VD projection, the very tensors the sampling step was given;
    the reconstruction is decoded from the sampled vector alone. *)
Theorem VariationalAutoencoder_latent_unchanged
    (x : Tensor) (g g' : rng) (recon z_mean z_logvar : Tensor) :
  call self x g = Ok (recon, z_mean, z_logvar, g') →
  ∃ proj z,
    VD_block self x = Ok proj ∧
    slice_to VAE_LATENT_SIZE proj = Ok z_mean ∧
    slice_from VAE_LATENT_SIZE proj = Ok z_logvar ∧
    val z_mean = val proj ∧
    (∀ i j, val z_logvar [i; j] = val proj [i; j + VAE_LATENT_SIZE]) ∧
    sample (z_mean, z_logvar) g = Ok (z, g') ∧
    decode self z = Ok recon.
Proof.
  intros (proj & z & Hproj & Hm & Hl & Hz & Hd)%VariationalAutoencoder_call_inv.
  exists proj, z. do 3 (split; [done|]).
  split; [|split; [|done]].
  - unfold slice_to in Hm.
    destruct (shape proj) as [|? [|? ?]]; try done. by injection Hm as <-.
  - unfold slice_from in Hl.
    destruct (shape proj) as [|? [|? ?]]; try done. by injection Hl as <-.
Qed.
End variational_autoencoder.

(** ** Configurations *)

Section configuration.
Context `{B : Backend} `{K : Constants}.

Lemma data_format_str_inj (df df' : DataFormat) :
  data_format_str df = data_format_str df' → df = df'.
Proof. by destruct df, df'. Qed.

(** What a decoder block records. *)
Lemma DecoderBlock_config_lookup
    name filters kernel_size df groups reduction kernel_regularizer
    kernel_initializer use_se θ :
  let cfg :=
    DecoderBlock.get_config
      (DecoderBlock.init name filters kernel_size df groups reduction
         kernel_regularizer kernel_initializer use_se θ) in
  cfg !! "filters" = Some (VInt (Z.of_nat filters)) ∧
  cfg !! "kernel_size" = Some (VInt (Z.of_nat kernel_size)) ∧
  cfg !! "data_format" = Some (VStr (data_format_str df)) ∧
  cfg !! "groups" = Some (VInt (Z.of_nat groups)) ∧
  cfg !! "reduction" = Some (VInt (Z.of_nat reduction)) ∧
  cfg !! "kernel_regularizer"
    = Some (regularizers_serialize kernel_regularizer) ∧
  cfg !! "use_se" = Some (VBool use_se) ∧
  cfg !! "name" = Some (VStr name).
Proof. repeat split; reflexivity. Qed.

(** What the decoder records. *)
Lemma ConvDecoder_config_lookup
    name names df kernel_size groups reduction kernel_regularizer
    kernel_initializer use_se θ :
  let cfg :=
    ConvDecoder.get_config
      (ConvDecoder.init name names df kernel_size groups reduction
         kernel_regularizer kernel_initializer use_se θ) in
  cfg !! "kernel_size" = Some (VInt (Z.of_nat kernel_size)) ∧
  cfg !! "data_format" = Some (VStr (data_format_str df)) ∧
  cfg !! "groups" = Some (VInt (Z.of_nat groups)) ∧
  cfg !! "reduction" = Some (VInt (Z.of_nat reduction)) ∧
  cfg !! "kernel_regularizer"
    = Some (regularizers_serialize kernel_regularizer) ∧
  cfg !! "use_se" = Some (VBool use_se) ∧
  cfg !! "name" = Some (VStr name).
Proof. destruct names as [[??]?]. repeat split; reflexivity. Qed.

(** The record of a layer carries the base layer's [name], which no
    [__init__] of the two files accepts: binding the record to the
    constructor's parameters, as the inherited [from_config] does, raises. *)
Lemma bind_keywords_name (params required : list string)
    (cfg : gmap string value) :
  is_Some (cfg !! "name") →
  "name" ∉ params →
  Layer.bind_keywords params required cfg = Raise TypeError.
Proof.
  intros Hname Hparams. unfold Layer.bind_keywords.
  rewrite decide_False; [done|].
  intros Hsub. apply Hparams.
  apply elem_of_dom in Hname. apply Hsub in Hname.
  by apply elem_of_list_to_set in Hname.
Qed.

Lemma DecoderBlock_from_config_raises
    name filters kernel_size df groups reduction kernel_regularizer
    kernel_initializer use_se θ :
  Layer.bind_keywords DecoderBlock.init_params ["filters"]
    (DecoderBlock.get_config
       (DecoderBlock.init name filters kernel_size df groups reduction
          kernel_regularizer kernel_initializer use_se θ))
  = Raise TypeError.
Proof.
  apply bind_keywords_name; [by eexists|].
  unfold DecoderBlock.init_params.
  rewrite !not_elem_of_cons. repeat split; try done. apply not_elem_of_nil.
Qed.

(** X12.  [get_config] returns the record made at construction.
    For a decoder block it holds the filter count, the kernel size, the
    data layout, the group count, the reduction ratio, the regularizer
    descriptor and the squeeze-excitation switch, each as passed to the
    constructor; for the decoder, which takes no filter count, it holds
    the other six.  Two layers with equal records were therefore built
    with equal values of these arguments. *)
Theorem get_config_records_arguments :
  (∀ name filters kernel_size df groups reduction kernel_regularizer
     kernel_initializer use_se θ,
     let self :=
       DecoderBlock.init name filters kernel_size df groups reduction
         kernel_regularizer kernel_initializer use_se θ in
     let cfg := DecoderBlock.get_config self in
     cfg = DecoderBlock.config self ∧
     cfg !! "filters" = Some (VInt (Z.of_nat filters)) ∧
     cfg !! "kernel_size" = Some (VInt (Z.of_nat kernel_size)) ∧
     cfg !! "data_format" = Some (VStr (data_format_str df)) ∧
     cfg !! "groups" = Some (VInt (Z.of_nat groups)) ∧
     cfg !! "reduction" = Some (VInt (Z.of_nat reduction)) ∧
     cfg !! "kernel_regularizer"
       = Some (regularizers_serialize kernel_regularizer) ∧
     cfg !! "use_se" = Some (VBool use_se)) ∧
  (∀ name names df kernel_size groups reduction kernel_regularizer
     kernel_initializer use_se θ,
     let self :=
       ConvDecoder.init name names df kernel_size groups reduction
         kernel_regularizer kernel_initializer use_se θ in
     let cfg := ConvDecoder.get_config self in
     cfg = ConvDecoder.config self ∧
     cfg !! "kernel_size" = Some (VInt (Z.of_nat kernel_size)) ∧
     cfg !! "data_format" = Some (VStr (data_format_str df)) ∧
     cfg !! "groups" = Some (VInt (Z.of_nat groups)) ∧
     cfg !! "reduction" = Some (VInt (Z.of_nat reduction)) ∧
     cfg !! "kernel_regularizer"
       = Some (regularizers_serialize kernel_regularizer) ∧
     cfg !! "use_se" = Some (VBool use_se)) ∧
  (∀ name filters kernel_size df groups reduction kernel_regularizer
     kernel_initializer use_se θ
     name' filters' kernel_size' df' groups' reduction' kernel_regularizer'
     kernel_initializer' use_se' θ',
     DecoderBlock.get_config
       (DecoderBlock.init name filters kernel_size df groups reduction
          kernel_regularizer kernel_initializer use_se θ)
     = DecoderBlock.get_config
         (DecoderBlock.init name' filters' kernel_size' df' groups'
            reduction' kernel_regularizer' kernel_initializer' use_se' θ') →
     filters = filters' ∧ kernel_size = kernel_size' ∧ df = df' ∧
     groups = groups' ∧ reduction = reduction' ∧
     regularizers_serialize kernel_regularizer
       = regularizers_serialize kernel_regularizer' ∧
     use_se = use_se') ∧
  (∀ name names df kernel_size groups reduction kernel_regularizer
     kernel_initializer use_se θ
     name' names' df' kernel_size' groups' reduction' kernel_regularizer'
     kernel_initializer' use_se' θ',
     ConvDecoder.get_config
       (ConvDecoder.init name names df kernel_size groups reduction
          kernel_regularizer kernel_initializer use_se θ)
     = ConvDecoder.get_config
         (ConvDecoder.init name' names' df' kernel_size' groups'
            reduction' kernel_regularizer' kernel_initializer' use_se' θ') →
     kernel_size = kernel_size' ∧ df = df' ∧
     groups = groups' ∧ reduction = reduction' ∧
     regularizers_serialize kernel_regularizer
       = regularizers_serialize kernel_regularizer' ∧
     use_se = use_se').
Proof.
  split; [|split; [|split]].
  - intros. split; [done|].
    destruct (DecoderBlock_config_lookup name filters kernel_size df groups
                reduction kernel_regularizer kernel_initializer use_se θ)
      as (? & ? & ? & ? & ? & ? & ? & _).
    by repeat split.
  - intros. split; [done|].
    destruct (ConvDecoder_config_lookup name names df kernel_size groups
                reduction kernel_regularizer kernel_initializer use_se θ)
      as (? & ? & ? & ? & ? & ? & _).
    by repeat split.
  - intros * Heq.
    destruct (DecoderBlock_config_lookup name filters kernel_size df groups
                reduction kernel_regularizer kernel_initializer use_se θ)
      as (H1 & H2 & H3 & H4 & H5 & H6 & H7 & _).
    destruct (DecoderBlock_config_lookup name' filters' kernel_size' df'
                groups' reduction' kernel_regularizer' kernel_initializer'
                use_se' θ')
      as (H1' & H2' & H3' & H4' & H5' & H6' & H7' & _).
    cbv zeta in *. rewrite Heq in H1, H2, H3, H4, H5, H6, H7.
    repeat split; try (apply Nat2Z.inj; congruence); try congruence.
    apply data_format_str_inj. congruence.
  - intros * Heq.
    destruct (ConvDecoder_config_lookup name names df kernel_size groups
                reduction kernel_regularizer kernel_initializer use_se θ)
      as (H2 & H3 & H4 & H5 & H6 & H7 & _).
    destruct (ConvDecoder_config_lookup name' names' df' kernel_size'
                groups' reduction' kernel_regularizer' kernel_initializer'
                use_se' θ')
      as (H2' & H3' & H4' & H5' & H6' & H7' & _).
    cbv zeta in *. rewrite Heq in H2, H3, H4, H5, H6, H7.
    repeat split; try (apply Nat2Z.inj; congruence); try congruence.
    apply data_format_str_inj. congruence.
Qed.

(** C8.  The two autoencoder classes define no [get_config]: what they
    serialize to is the base layer's record, which is the same whatever
    the constructor was given, and which the constructor rejects. *)
Theorem VariationalAutoencoder_config_forgets_arguments :
  (∀ name filters filters' kernel_size kernel_size' df df' groups groups'
     kernel_regularizer kernel_regularizer' θ θ',
     VariationalAutoencoderBlock.get_config
       (VariationalAutoencoderBlock.init name filters kernel_size df groups
          kernel_regularizer θ)
     = VariationalAutoencoderBlock.get_config
         (VariationalAutoencoderBlock.init name filters' kernel_size' df'
            groups' kernel_regularizer' θ')) ∧
  (∀ names names' df df' groups groups' kernel_size kernel_size'
     kernel_regularizer kernel_regularizer' θ θ',
     VariationalAutoencoder.get_config
       (VariationalAutoencoder.init names df groups kernel_size
          kernel_regularizer θ)
     = VariationalAutoencoder.get_config
         (VariationalAutoencoder.init names' df' groups' kernel_size'
            kernel_regularizer' θ')) ∧
  (∀ name filters kernel_size df groups kernel_regularizer θ,
     let self :=
       VariationalAutoencoderBlock.init name filters kernel_size df groups
         kernel_regularizer θ in
     Conv3D.filters (VariationalAutoencoderBlock.conv3d_ptwise self)
       = filters ∧
     VariationalAutoencoderBlock.get_config self !! "filters" = None ∧
     Layer.bind_keywords VariationalAutoencoderBlock.init_params ["filters"]
       (VariationalAutoencoderBlock.get_config self)
     = Raise TypeError) ∧
  (∀ names df groups kernel_size kernel_regularizer θ,
     let self :=
       VariationalAutoencoder.init names df groups kernel_size
         kernel_regularizer θ in
     VariationalAutoencoder.get_config self !! "data_format" = None ∧
     Layer.bind_keywords VariationalAutoencoder.init_params []
       (VariationalAutoencoder.get_config self)
     = Raise TypeError).
Proof.
  split; [done|]. split.
  { intros [[??]?] [[??]?] *. done. }
  split.
  - intros. do 2 (split; [done|]).
    apply bind_keywords_name; [by eexists|].
    unfold VariationalAutoencoderBlock.init_params.
    rewrite !not_elem_of_cons. repeat split; try done. apply not_elem_of_nil.
  - intros [[??]?] *. split; [done|].
    apply bind_keywords_name; [by eexists|].
    unfold VariationalAutoencoder.init_params.
    rewrite !not_elem_of_cons. repeat split; try done. apply not_elem_of_nil.
Qed.
End configuration.

(** ** The model run on concrete inputs *)

Lemma sample_reparameterization_witness :
  ∃ z, sample (input_tensor 0 [2; 3], input_tensor 1 [2; 3]) (0, 0)
         = Ok (z, (1, 1)) ∧
       shape z = [2; 3] ∧
       ∀ idx, in_range idx [2; 3] →
         val z idx
         = SAdd (SInput 0 idx)
             (SMul (SExp (SMul SHalf (SInput 1 idx))) (SNormal 0 idx)).
Proof.
  apply (sample_reparameterization
           (input_tensor 0 [2; 3]) (input_tensor 1 [2; 3]) (0, 0)
           (SNormal 0) (1, 1)); reflexivity.
Defined.

Lemma DecoderBlock_call_pipeline_witness :
  ∃ out,
    DecoderBlock.call
      (DecoderBlock.init_default "decoder_block" 128 (decoder_block_weights 0))
      (input_tensor 0 [1; 2; 2; 2; 256], input_tensor 1 [1; 4; 4; 4; 128])
    = Ok out ∧
    shape out = [1; 4; 4; 4; 128].
Proof.
  destruct (DecoderBlock_call_pipeline (B:=symbolic) "decoder_block" 128 3 channels_last 8 4
              None he_normal false (decoder_block_weights 0)
              (input_tensor 0 [1; 2; 2; 2; 256])
              (input_tensor 1 [1; 4; 4; 4; 128]))
    as (_ & _ & _ & _ & _ & _ & _ & Hrun).
  destruct (Hrun 1 2 2 2 256 eq_refl eq_refl)
    as (p & u & a & out & _ & _ & _ & _ & _ & _ & _ & _ & _ & Hcall & Hshape).
  exists out. split; [exact Hcall|exact Hshape].
Defined.

Lemma ConvDecoder_call_pipeline_witness :
  0 < OUT_CH ∧
  ∃ out,
    ConvDecoder.call decoder_0
      (input_tensor 0 [1; 16; 16; 16; 32], input_tensor 1 [1; 8; 8; 8; 64],
       input_tensor 2 [1; 4; 4; 4; 128], input_tensor 3 [1; 2; 2; 2; 256])
    = Ok out ∧
    spatial_of channels_last (shape out) = Some (16, 16, 16).
Proof.
  assert (0 < OUT_CH) as Hpos by (simpl; lia).
  split; [exact Hpos|].
  destruct (ConvDecoder_call_pipeline (B:=symbolic) (K:=paper_sizes)
              "conv_decoder" decoder_names
              channels_last 3 8 4 None he_normal false decoder_weights
              (input_tensor 0 [1; 16; 16; 16; 32])
              (input_tensor 1 [1; 8; 8; 8; 64])
              (input_tensor 2 [1; 4; 4; 4; 128])
              (input_tensor 3 [1; 2; 2; 2; 256]) Hpos)
    as (_ & _ & _ & _ & _ & Hrun).
  destruct (Hrun 1 2 2 2 256 eq_refl eq_refl eq_refl eq_refl)
    as (x2 & x1 & x0 & y & logits & out & _ & _ & _ & _ & _ & _ & Hcall & _ & _
        & Hsp).
  exists out. split; [exact Hcall|exact Hsp].
Defined.

Lemma VariationalAutoencoder_latent_split_witness :
  VAE_VD_BLOCK_SIZE = 2 * VAE_LATENT_SIZE ∧
  shape bottleneck_0 = [1; 8; 8; 8; 256] ∧
  ∃ recon z_mean z_logvar g',
    VariationalAutoencoder.call vae_0 bottleneck_0 (0, 0)
    = Ok (recon, z_mean, z_logvar, g') ∧
    shape z_mean = [1; 128] ∧ shape z_logvar = [1; 128].
Proof.
  split; [reflexivity|]. split; [reflexivity|].
  destruct (VariationalAutoencoder_latent_split (B:=symbolic) (K:=paper_sizes)
              "variational_autoencoder_block" "variational_autoencoder_block_1"
              "variational_autoencoder_block_2" channels_last 8 3 None
              vae_weights bottleneck_0 (0, 0) 1 8 8 8 256 eq_refl eq_refl)
    as (proj & recon & z_mean & z_logvar & g' & _ & _ & _ & Hcall & Hm & Hl & _).
  exists recon, z_mean, z_logvar, g'.
  split; [exact Hcall|]. split; [exact Hm|exact Hl].
Defined.

Lemma VariationalAutoencoder_VU_block_witness :
  shape (input_tensor 0 [1; 128]) = [1; 128] ∧
  ∃ u, VU_block vae_0 (input_tensor 0 [1; 128]) = Ok u ∧
       shape u = [1; 8; 8; 8; 256].
Proof.
  split; [reflexivity|].
  destruct (VariationalAutoencoder_VU_block (B:=symbolic) (K:=paper_sizes)
              "variational_autoencoder_block" "variational_autoencoder_block_1"
              "variational_autoencoder_block_2" channels_last 8 3 None
              vae_weights (input_tensor 0 [1; 128]) 1 128 eq_refl)
    as (p & r & c & u & _ & _ & _ & _ & _ & _ & _ & _ & _ & _ & Hvu & Hlast).
  exists u. split; [exact Hvu|]. exact (proj2 (Hlast eq_refl)).
Defined.

Lemma VariationalAutoencoder_call_outputs_witness :
  VAE_VD_BLOCK_SIZE = 2 * VAE_LATENT_SIZE ∧
  shape bottleneck_0 = [1; 8; 8; 8; 256] ∧
  ∃ recon z_mean z_logvar g',
    VariationalAutoencoder.call vae_0 bottleneck_0 (0, 0)
    = Ok (recon, z_mean, z_logvar, g') ∧
    channels_of channels_last (shape recon) = Some 4.
Proof.
  split; [reflexivity|]. split; [reflexivity|].
  destruct (VariationalAutoencoder_call_outputs (B:=symbolic) (K:=paper_sizes)
              "variational_autoencoder_block" "variational_autoencoder_block_1"
              "variational_autoencoder_block_2" channels_last 8 3 None
              vae_weights bottleneck_0 (0, 0))
    as (_ & _ & Hany & Hrun).
  destruct (Hrun eq_refl 1 8 8 8 256 eq_refl)
    as (recon & z_mean & z_logvar & g' & Hcall).
  destruct (Hany recon z_mean z_logvar g' Hcall)
    as (z & u & y & _ & _ & _ & _ & Hch).
  exists recon, z_mean, z_logvar, g'. split; [exact Hcall|exact Hch].
Defined.

Lemma VariationalAutoencoder_latent_unchanged_witness :
  ∃ recon z_mean z_logvar g',
    VariationalAutoencoder.call vae_0 bottleneck_0 (0, 0)
    = Ok (recon, z_mean, z_logvar, g') ∧
    ∃ proj z,
      VD_block vae_0 bottleneck_0 = Ok proj ∧
      slice_to VAE_LATENT_SIZE proj = Ok z_mean ∧
      slice_from VAE_LATENT_SIZE proj = Ok z_logvar ∧
      sample (z_mean, z_logvar) (0, 0) = Ok (z, g') ∧
      decode vae_0 z = Ok recon.
Proof.
  destruct (VariationalAutoencoder_call_run (B:=symbolic) (K:=paper_sizes)
              "variational_autoencoder_block"
              "variational_autoencoder_block_1"
              "variational_autoencoder_block_2" channels_last 8 3 None
              vae_weights bottleneck_0 (0, 0) 1 8 8 8 256 eq_refl eq_refl)
    as (proj0 & z_mean & z_logvar & z0 & recon & _ & _ & _ & _ & _ & _ & _ & _
        & _ & _ & _ & Hcall).
  exists recon, z_mean, z_logvar. eexists.
  split; [exact Hcall|].
  destruct (VariationalAutoencoder_latent_unchanged (B:=symbolic) (K:=paper_sizes)
              "variational_autoencoder_block" "variational_autoencoder_block_1"
              "variational_autoencoder_block_2" channels_last 8 3 None
              vae_weights bottleneck_0 (0, 0) _ recon z_mean z_logvar Hcall)
    as (proj & z & Hproj & Hm & Hl & _ & _ & Hz & Hd).
  exists proj, z. repeat split; assumption.
Defined.

Lemma get_config_records_arguments_witness :
  DecoderBlock.get_config
    (DecoderBlock.init "decoder_block" 128 3 channels_last 8 4 None he_normal
       false (decoder_block_weights 0))
  = DecoderBlock.get_config
      (DecoderBlock.init "decoder_block" 128 3 channels_last 8 4 None
         glorot_uniform false (decoder_block_weights 2)) ∧
  128 = 128.
Proof.
  assert (DecoderBlock.get_config
            (DecoderBlock.init "decoder_block" 128 3 channels_last 8 4 None
               he_normal false (decoder_block_weights 0))
          = DecoderBlock.get_config
              (DecoderBlock.init "decoder_block" 128 3 channels_last 8 4 None
                 glorot_uniform false (decoder_block_weights 2))) as Heq
    by reflexivity.
  split; [exact Heq|].
  exact (proj1 (proj1 (proj2 (proj2 (get_config_records_arguments (B:=symbolic) (K:=paper_sizes))))
                  _ _ _ _ _ _ _ _ _ _ _ _ _ _ _ _ _ _ _ _ Heq)).
Defined.

(** C4 as stated fails: for the bottleneck of a 64-voxel cube, of spatial
    extent 8, the sampled vector is projected to [4 * 4 * 4] values, the
    configured extent 64 divided by 16 on each axis, and not to
    [(8/16) * (8/16) * (8/16)].  Whatever the constants are, the size of
    the projection is fixed at construction, so it cannot be the one the
    claim gives for a bottleneck of extent 16 and also the one it gives for
    a bottleneck of extent 32. *)
Lemma VU_extent_is_not_bottleneck_over_16 :
  (∃ recon z_mean z_logvar g' z p,
     VariationalAutoencoder.call vae_0 bottleneck_0 (0, 0)
     = Ok (recon, z_mean, z_logvar, g') ∧
     sample (z_mean, z_logvar) (0, 0) = Ok (z, g') ∧
     Dense.call (VariationalAutoencoder.proj_VU vae_0) z = Ok p ∧
     spatial_of channels_last (shape bottleneck_0) = Some (8, 8, 8) ∧
     shape p = [1; 4 * 4 * 4] ∧
     shape p ≠ [1; 8 / 16 * (8 / 16) * (8 / 16)]) ∧
  (∀ (K : Constants) names df groups kernel_size kernel_regularizer θ,
     let units :=
       Dense.units
         (VariationalAutoencoder.proj_VU
            (VariationalAutoencoder.init (B:=symbolic) (K:=K) names df groups
               kernel_size kernel_regularizer θ)) in
     ¬ (units = 16 / 16 * (16 / 16) * (16 / 16) ∧
        units = 32 / 16 * (32 / 16) * (32 / 16))).
Proof.
  split.
  - destruct (VariationalAutoencoder_call_run (B:=symbolic) (K:=paper_sizes)
                "variational_autoencoder_block"
                "variational_autoencoder_block_1"
                "variational_autoencoder_block_2" channels_last 8 3 None
                vae_weights bottleneck_0 (0, 0) 1 8 8 8 256 eq_refl eq_refl)
      as (pr & z_mean & z_logvar & z & recon & _ & _ & _ & _ & _ & _ & _ & _
          & Hz & Hzs & _ & Hcall).
    destruct (VU_block_run (B:=symbolic) (K:=paper_sizes)
                "variational_autoencoder_block"
                "variational_autoencoder_block_1"
                "variational_autoencoder_block_2" channels_last 8 3 None
                vae_weights z 1 _ Hzs)
      as (p & _ & _ & _ & Hp & Hps & _).
    exists recon, z_mean, z_logvar. eexists. exists z, p.
    split; [exact Hcall|]. split; [exact Hz|]. split; [exact Hp|].
    split; [reflexivity|]. split; [exact Hps|].
    rewrite Hps. intros Heq. discriminate Heq.
  - intros K names df groups kernel_size kernel_regularizer θ units [H1 H2].
    rewrite H1 in H2. discriminate H2.
Qed.

(** The record of a decoder has no filter count, and neither record has
    the kernel initializer. *)
Lemma ConvDecoder_config_has_no_filters :
  ConvDecoder.get_config decoder_0 !! "filters" = None ∧
  ConvDecoder.get_config decoder_0 !! "kernel_initializer" = None ∧
  DecoderBlock.get_config
    (DecoderBlock.init_default "decoder_block" 128 (decoder_block_weights 0))
    !! "kernel_initializer" = None.
Proof. repeat split; reflexivity. Qed.

(** * Further properties of the two files *)

(** ** Broadcasting *)

Section broadcasting.
Context `{B : Backend}.

Lemma broadcast_rev_cons (a b : nat) (s1 s2 : list nat) :
  broadcast_rev (a :: s1) (b :: s2)
  = if decide (a = b ∨ a = 1 ∨ b = 1)
    then cons (if decide (a = 1) then b else a) <$> broadcast_rev s1 s2
    else None.
Proof.
  simpl. repeat case_decide; try done; try (exfalso; tauto); by subst.
Qed.

(** On shapes of one rank the result keeps every extent that is not 1, and
    exists exactly when the extents agree or one of them is 1. *)
Lemma broadcast_rev_same_length (s1 s2 s : list nat) :
  length s1 = length s2 →
  broadcast_rev s1 s2 = Some s →
  s = zip_with (λ a b, if decide (a = 1) then b else a) s1 s2 ∧
  Forall2 (λ a b, a = b ∨ a = 1 ∨ b = 1) s1 s2.
Proof.
  revert s2 s. induction s1 as [|a s1 IH]; intros [|b s2] s Hlen; try done.
  - simpl. by intros [= <-].
  - rewrite broadcast_rev_cons. case_decide as Hc; [|done].
    destruct (broadcast_rev s1 s2) as [s'|] eqn:Hs'; [|done].
    simpl. intros [= <-].
    destruct (IH s2 s' ltac:(by injection Hlen) Hs') as [-> HF].
    split; [done|]. by constructor.
Qed.

(** Broadcasting an operand against a shape it was already broadcast into
    changes nothing. *)
Lemma broadcast_rev_absorb (s1 s2 s : list nat) :
  broadcast_rev s2 s1 = Some s → broadcast_rev s1 s = Some s.
Proof.
  revert s1 s. induction s2 as [|b s2 IH]; intros s1 s.
  - intros Hs. assert (s = s1) as -> by (destruct s1; simpl in Hs; congruence).
    apply broadcast_rev_diag.
  - destruct s1 as [|a s1]; [by intros [= <-]|].
    rewrite broadcast_rev_cons. case_decide as Hc; [|done].
    destruct (broadcast_rev s2 s1) as [s'|] eqn:Hs'; [|done].
    intros Heq. simpl in Heq. injection Heq as <-.
    rewrite broadcast_rev_cons, (IH _ _ Hs').
    repeat case_decide; simpl; try done; try (exfalso; lia);
      do 2 f_equal; lia.
Qed.

Lemma broadcast_shape_absorb (s1 s2 s : list nat) :
  broadcast_shape s2 s1 = Some s → broadcast_shape s1 s = Some s.
Proof.
  unfold broadcast_shape.
  destruct (broadcast_rev (reverse s2) (reverse s1)) as [r|] eqn:Hr; [|done].
  simpl. intros [= <-]. rewrite reverse_involutive.
  by rewrite (broadcast_rev_absorb _ _ _ Hr).
Qed.
End broadcasting.

(** ** The sampling step on operands of different shapes *)

Section sampling_broadcast.
Context `{B : Backend}.

(** X1.  The noise is drawn in the shape of the mean.  When the shape of
    the log-variance does not broadcast against it the step raises; otherwise
    the result has the broadcast shape, and each entry combines the entries
    of the mean, of the log-variance and of the noise at the positions
    broadcasting assigns to it. *)
Theorem sample_broadcast (z_mean z_logvar : Tensor) (g : rng) :
  (broadcast_shape (shape z_logvar) (shape z_mean) = None →
   sample (z_mean, z_logvar) g = Raise InvalidArgumentError) ∧
  (∀ s, broadcast_shape (shape z_logvar) (shape z_mean) = Some s →
     ∃ z, sample (z_mean, z_logvar) g
            = Ok (z, (normal_draw g (shape z_mean)).2) ∧
          shape z = s ∧
          ∀ idx, in_range idx s →
            val z idx
            = f_add (val z_mean (broadcast_index (shape z_mean) idx))
                (f_mul
                   (f_exp (f_mul f_half
                      (val z_logvar (broadcast_index (shape z_logvar) idx))))
                   ((normal_draw g (shape z_mean)).1
                      (broadcast_index (shape z_mean) idx)))).
Proof.
  unfold sample, mbind, M_bind, random_normal.
  destruct (normal_draw g (shape z_mean)) as [v g'] eqn:Hdraw.
  set (e := tensor_exp (scalar_mul f_half z_logvar)).
  set (eps := {| shape := shape z_mean; val := v |}).
  cbn [fst snd]. split.
  - intros Hs.
    assert (tensor_mul e eps = Raise InvalidArgumentError) as ->; [|done].
    unfold tensor_mul, tensor_zip.
    change (shape e) with (shape z_logvar).
    change (shape eps) with (shape z_mean). by rewrite Hs.
  - intros s Hs.
    assert (tensor_mul e eps
            = Ok {| shape := s;
                    val := λ idx,
                      f_mul (val e (broadcast_index (shape z_logvar) idx))
                            (val eps (broadcast_index (shape z_mean) idx)) |})
      as ->.
    { unfold tensor_mul, tensor_zip.
      change (shape e) with (shape z_logvar).
      change (shape eps) with (shape z_mean). by rewrite Hs. }
    unfold lift, result_bind, tensor_add, tensor_zip. cbn [shape].
    rewrite (broadcast_shape_absorb _ _ _ Hs).
    eexists. split; [done|]. split; [done|].
    intros idx Hr. cbn [val].
    by rewrite (broadcast_index_in_range s idx Hr).
Qed.
End sampling_broadcast.

(** ** Shapes through the decoder *)

Section decoder_shapes.
Context `{B : Backend}.

Lemma as_volume_Some (df : DataFormat) (s : list nat) n d1 d2 d3 c :
  as_volume df s = Some (n, (d1, d2, d3), c) →
  s = volume_shape df n d1 d2 d3 c.
Proof.
  destruct s as [|? [|? [|? [|? [|? [|]]]]]]; try done.
  destruct df; simpl; congruence.
Qed.

Lemma Conv3D_call_inv (l : Conv3D.t) (x y : Tensor) :
  Conv3D.call l x = Ok y →
  ∃ n d1 d2 d3 c,
    shape x = volume_shape (Conv3D.data_format l) n d1 d2 d3 c ∧
    shape y = volume_shape (Conv3D.data_format l) n
                (same_extent d1 (Conv3D.strides l))
                (same_extent d2 (Conv3D.strides l))
                (same_extent d3 (Conv3D.strides l)) (Conv3D.filters l).
Proof.
  unfold Conv3D.call, Conv3D.linear.
  destruct (as_volume _ (shape x)) as [[[n [[d1 d2] d3]] c]|] eqn:Hv; [|done].
  unfold mbind, result_bind. intros [= <-].
  exists n, d1, d2, d3, c. split; [by apply as_volume_Some|].
  by rewrite shape_apply_activation.
Qed.

Lemma Conv3D_call_not_volume (l : Conv3D.t) (x : Tensor) :
  as_volume (Conv3D.data_format l) (shape x) = None →
  Conv3D.call l x = Raise ValueError.
Proof. intros Hv. unfold Conv3D.call, Conv3D.linear. by rewrite Hv. Qed.

Lemma UpSampling3D_call_inv (l : UpSampling3D.t) (x y : Tensor) :
  UpSampling3D.call l x = Ok y →
  ∃ n d1 d2 d3 c,
    shape x = volume_shape (UpSampling3D.data_format l) n d1 d2 d3 c ∧
    shape y = volume_shape (UpSampling3D.data_format l) n
                (UpSampling3D.size l * d1) (UpSampling3D.size l * d2)
                (UpSampling3D.size l * d3) c.
Proof.
  unfold UpSampling3D.call.
  destruct (as_volume _ (shape x)) as [[[n [[d1 d2] d3]] c]|] eqn:Hv; [|done].
  intros [= <-]. exists n, d1, d2, d3, c. split; [by apply as_volume_Some|done].
Qed.

Lemma ConvBlock_call_inv (l : ConvBlock.t) (x y : Tensor) :
  ConvBlock.call l x = Ok y →
  ∃ n d1 d2 d3 c,
    shape x = volume_shape (ConvBlock.data_format l) n d1 d2 d3 c ∧
    shape y = volume_shape (ConvBlock.data_format l) n d1 d2 d3
                (ConvBlock.filters l).
Proof.
  unfold ConvBlock.call.
  destruct (as_volume _ (shape x)) as [[[n [[d1 d2] d3]] c]|] eqn:Hv; [|done].
  intros [= <-]. exists n, d1, d2, d3, c. split; [by apply as_volume_Some|done].
Qed.

Lemma volume_shape_inj (df : DataFormat) n d1 d2 d3 c n' d1' d2' d3' c' :
  volume_shape df n d1 d2 d3 c = volume_shape df n' d1' d2' d3' c' →
  n = n' ∧ d1 = d1' ∧ d2 = d2' ∧ d3 = d3' ∧ c = c'.
Proof. destruct df; simpl; intros [= -> -> -> -> ->]; done. Qed.

(** What the merge layer returns for two volumes: the extents of the first
    that are not 1 are kept, and two extents that differ, neither being 1,
    make it raise. *)
Lemma Add_call_volumes (l : Add.t) (u r : Tensor) df n x y z f n' x' y' z' f' :
  shape u = volume_shape df n x y z f →
  shape r = volume_shape df n' x' y' z' f' →
  match Add.call l (u, r) with
  | Ok a =>
      n = n' ∧
      (x = x' ∨ x = 1 ∨ x' = 1) ∧ (y = y' ∨ y = 1 ∨ y' = 1) ∧
      (z = z' ∨ z = 1 ∨ z' = 1) ∧ (f = f' ∨ f = 1 ∨ f' = 1) ∧
      shape a = volume_shape df n
                  (if decide (x = 1) then x' else x)
                  (if decide (y = 1) then y' else y)
                  (if decide (z = 1) then z' else z)
                  (if decide (f = 1) then f' else f)
  | Raise _ =>
      n ≠ n' ∨ ¬ (x = x' ∨ x = 1 ∨ x' = 1) ∨ ¬ (y = y' ∨ y = 1 ∨ y' = 1) ∨
      ¬ (z = z' ∨ z = 1 ∨ z' = 1) ∨ ¬ (f = f' ∨ f = 1 ∨ f' = 1)
  end.
Proof.
  intros Hu Hr. unfold Add.call, rank, tensor_add, tensor_zip, broadcast_shape.
  rewrite Hu, Hr.
  rewrite decide_True by (by destruct df).
  rewrite !batch_of_volume_shape.
  case_decide as Hn; [injection Hn as <-|left; congruence].
  assert ((if decide (n = 1) then n else n) = n) as Hnn by (by case_decide).
  destruct df; cbn [volume_shape reverse rev_append];
    rewrite !broadcast_rev_cons; cbn [broadcast_rev];
    rewrite (decide_True (P := n = n ∨ _)) by tauto; rewrite Hnn;
    destruct (decide (x = x' ∨ x = 1 ∨ x' = 1));
    destruct (decide (y = y' ∨ y = 1 ∨ y' = 1));
    destruct (decide (z = z' ∨ z = 1 ∨ z' = 1));
    destruct (decide (f = f' ∨ f = 1 ∨ f' = 1));
    cbn [fmap option_fmap option_map reverse rev_append app shape];
    tauto.
Qed.
(** A volume whose spatial extents are doubled ones keeps them through the
    merge layer, whatever the other operand is. *)
Lemma Add_call_doubled (l : Add.t) (u r a : Tensor) df n d1 d2 d3 f :
  shape u = volume_shape df n (2 * d1) (2 * d2) (2 * d3) f →
  Add.call l (u, r) = Ok a →
  ∃ ch, shape a = volume_shape df n (2 * d1) (2 * d2) (2 * d3) ch.
Proof.
  intros Hu Ha.
  assert (length (shape r) = 5) as Hlen.
  { unfold Add.call, rank in Ha. case_decide as Hrk; [|done].
    rewrite <- Hrk, Hu. by destruct df. }
  destruct (shape r) as [|r0 [|r1 [|r2 [|r3 [|r4 [|]]]]]] eqn:Hr; try done.
  destruct (as_volume_rank5 df r0 r1 r2 r3 r4) as (x' & y' & z' & f' & Hv).
  apply as_volume_Some in Hv. rewrite <- Hr in Hv.
  pose proof (Add_call_volumes l u r df _ _ _ _ _ _ _ _ _ _ Hu Hv) as Hadd.
  rewrite Ha in Hadd. destruct Hadd as (_ & _ & _ & _ & _ & ->).
  rewrite !decide_False by lia. eauto.
Qed.
End decoder_shapes.

Section decoder_block_shapes.
Context `{B : Backend}.
Import DecoderBlock.

Variables (name : string) (filters kernel_size : nat) (df : DataFormat).
Variables (groups reduction : nat) (kernel_regularizer : option regularizer).
Variables (kernel_initializer : Initializer) (use_se : bool) (θ : params).

Let self : t :=
  init name filters kernel_size df groups reduction kernel_regularizer
    kernel_initializer use_se θ.

(** The block on a feature volume and a residual volume: which residuals
    it accepts, and the shape it returns. *)
Lemma DecoderBlock_call_volumes (features enc_res : Tensor)
    n d1 d2 d3 c n' e1 e2 e3 c' :
  shape features = volume_shape df n d1 d2 d3 c →
  shape enc_res = volume_shape df n' e1 e2 e3 c' →
  match call self (features, enc_res) with
  | Ok out =>
      n' = n ∧ (e1 = 2 * d1 ∨ e1 = 1) ∧ (e2 = 2 * d2 ∨ e2 = 1) ∧
      (e3 = 2 * d3 ∨ e3 = 1) ∧ (c' = filters ∨ c' = 1 ∨ filters = 1) ∧
      shape out = volume_shape df n (2 * d1) (2 * d2) (2 * d3) filters
  | Raise _ =>
      ¬ (n' = n ∧ (e1 = 2 * d1 ∨ e1 = 1) ∧ (e2 = 2 * d2 ∨ e2 = 1) ∧
         (e3 = 2 * d3 ∨ e3 = 1) ∧ (c' = filters ∨ c' = 1 ∨ filters = 1))
  end.
Proof.
  intros Hx Hr.
  destruct (Conv3D_call_unit_stride (conv3d_ptwise self) features
              df n d1 d2 d3 c eq_refl eq_refl Hx) as (p & _ & Hp & Hps).
  change (apply_activation _ p) with p in Hp.
  change (Conv3D.filters _) with filters in Hps.
  destruct (UpSampling3D_call_volume (upsample self) p n d1 d2 d3 filters Hps)
    as (u & Hu & Hus & _).
  change (shape u = volume_shape df n (2 * d1) (2 * d2) (2 * d3) filters)
    in Hus.
  pose proof (Add_call_volumes (residual self) u enc_res df
                _ _ _ _ _ _ _ _ _ _ Hus Hr) as Hadd.
  unfold call. cbv beta iota. rewrite Hp, bind_Ok, Hu, bind_Ok.
  destruct (Add.call (residual self) (u, enc_res)) as [a|e].
  - destruct Hadd as (Hn & H1 & H2 & H3 & Hc & Has).
    rewrite !(decide_False (P := 2 * _ = 1)) in Has by lia.
    destruct (ConvBlock_call_volume (conv_block self) a _ _ _ _ _ Has)
      as (out & Ho & Hos).
    rewrite bind_Ok, bind_Ok_r, Ho.
    repeat split; try done; lia.
  - unfold mbind, result_bind. intros (Hn & H1 & H2 & H3 & Hc).
    destruct Hadd as [?|[?|[?|[?|?]]]]; lia.
Qed.

(** Whatever the block returns has the batch size of the features, twice
    their spatial extent and [filters] channels. *)
Lemma DecoderBlock_call_shape (features enc_res out : Tensor) :
  call self (features, enc_res) = Ok out →
  ∃ n d1 d2 d3 c,
    shape features = volume_shape df n d1 d2 d3 c ∧
    shape out = volume_shape df n (2 * d1) (2 * d2) (2 * d3) filters.
Proof.
  unfold call. cbv beta iota.
  destruct (Conv3D.call _ features) as [p|] eqn:Hp; [rewrite bind_Ok|done].
  destruct (UpSampling3D.call _ p) as [u|] eqn:Hu; [rewrite bind_Ok|done].
  destruct (Add.call _ (u, enc_res)) as [a|] eqn:Ha; [rewrite bind_Ok|done].
  rewrite bind_Ok_r. intros Ho.
  apply Conv3D_call_inv in Hp as (n & d1 & d2 & d3 & c & Hx & Hps).
  cbn [Conv3D.data_format Conv3D.strides Conv3D.filters conv3d_ptwise self init]
    in Hx, Hps.
  rewrite !same_extent_1 in Hps.
  destruct (UpSampling3D_call_volume (upsample self) p n d1 d2 d3 filters Hps)
    as (u' & Hu' & Hus & _).
  assert (u' = u) as -> by congruence.
  change (shape u = volume_shape df n (2 * d1) (2 * d2) (2 * d3) filters)
    in Hus.
  destruct (Add_call_doubled _ u enc_res a df n d1 d2 d3 filters Hus Ha)
    as (ch & Has).
  destruct (ConvBlock_call_volume (conv_block self) a _ _ _ _ _ Has)
    as (out' & Ho' & Hos).
  assert (out' = out) as -> by congruence.
  by exists n, d1, d2, d3, c.
Qed.

(** X2.  Given a residual that is a 5-D tensor, the shape of the result is
    fixed by the features alone: whatever the block returns has the batch
    size of the features, twice their spatial extent and [filters]
    channels, so no residual can change it. *)
Theorem DecoderBlock_call_output_shape (features enc_res out : Tensor) :
  length (shape enc_res) = 5 →
  call self (features, enc_res) = Ok out →
  ∃ n d1 d2 d3 c,
    shape features = volume_shape df n d1 d2 d3 c ∧
    shape out = volume_shape df n (2 * d1) (2 * d2) (2 * d3) filters.
Proof. intros _. apply DecoderBlock_call_shape. Qed.

(** X3.  On volumes the block succeeds exactly when the residual has the
    batch size of the features and each of its other extents either equals the
    extent of the upsampled features or is 1 (or, for the channels, the
    block has a single filter); features that are no 5-D volume raise
    [ValueError]. *)
Theorem DecoderBlock_call_accepts (features enc_res : Tensor)
    n d1 d2 d3 c n' e1 e2 e3 c' :
  shape enc_res = volume_shape df n' e1 e2 e3 c' →
  (as_volume df (shape features) = None →
   call self (features, enc_res) = Raise ValueError) ∧
  (shape features = volume_shape df n d1 d2 d3 c →
   ((∃ out, call self (features, enc_res) = Ok out) ↔
    n' = n ∧ (e1 = 2 * d1 ∨ e1 = 1) ∧ (e2 = 2 * d2 ∨ e2 = 1) ∧
    (e3 = 2 * d3 ∨ e3 = 1) ∧ (c' = filters ∨ c' = 1 ∨ filters = 1))).
Proof.
  intros Hr. split.
  - intros Hv. unfold call. cbv beta iota.
    by rewrite (Conv3D_call_not_volume (conv3d_ptwise self) features Hv).
  - intros Hx.
    pose proof (DecoderBlock_call_volumes features enc_res
                  _ _ _ _ _ _ _ _ _ _ Hx Hr) as Hcall.
    destruct (call self (features, enc_res)) as [out|e].
    + split; [tauto|eauto].
    + split; [by intros [out ?]|tauto].
Qed.
End decoder_block_shapes.

Section conv_decoder_shapes.
Context `{B : Backend} `{K : Constants}.
Import ConvDecoder.

Variables (name : string) (names : string * string * string).
Variables (df : DataFormat) (kernel_size groups reduction : nat).
Variables (kernel_regularizer : option regularizer).
Variables (kernel_initializer : Initializer) (use_se : bool) (θ : params).

Let self : t :=
  init name names df kernel_size groups reduction kernel_regularizer
    kernel_initializer use_se θ.

(** X4.  Given residuals that are 5-D tensors, whatever the decoder
    returns has the batch size of the bottleneck, eight times its spatial
    extent and [OUT_CH - 1] channels: the residuals cannot change the shape
    of the result. *)
Theorem ConvDecoder_call_output_shape
    (enc_out_0 enc_out_1 enc_out_2 x out : Tensor) :
  0 < OUT_CH →
  length (shape enc_out_0) = 5 →
  length (shape enc_out_1) = 5 →
  length (shape enc_out_2) = 5 →
  call self (enc_out_0, enc_out_1, enc_out_2, x) = Ok out →
  ∃ n d1 d2 d3 c,
    shape x = volume_shape df n d1 d2 d3 c ∧
    shape out = volume_shape df n (8 * d1) (8 * d2) (8 * d3) (OUT_CH - 1).
Proof.
  intros _ _ _ _. unfold call, self. cbv beta iota.
  rewrite (dec_block_2_eq name names df kernel_size groups reduction
             kernel_regularizer kernel_initializer use_se θ),
    (dec_block_1_eq name names df kernel_size groups reduction
       kernel_regularizer kernel_initializer use_se θ),
    (dec_block_0_eq name names df kernel_size groups reduction
       kernel_regularizer kernel_initializer use_se θ).
  destruct (DecoderBlock.call _ (x, enc_out_2)) as [x2|] eqn:H2;
    [rewrite bind_Ok|done].
  destruct (DecoderBlock.call _ (x2, enc_out_1)) as [x1|] eqn:H1;
    [rewrite bind_Ok|done].
  destruct (DecoderBlock.call _ (x1, enc_out_0)) as [x0|] eqn:H0;
    [rewrite bind_Ok|done].
  destruct (Conv3D.call (conv_out _) x0) as [y|] eqn:Hy;
    [rewrite bind_Ok|done].
  rewrite bind_Ok_r. intros Ho.
  apply DecoderBlock_call_shape in H2 as (n & d1 & d2 & d3 & c & Hx & H2s).
  apply DecoderBlock_call_shape in H1 as (n1 & a1 & a2 & a3 & c1 & H1x & H1s).
  rewrite H2s in H1x.
  apply volume_shape_inj in H1x as (<- & <- & <- & <- & _).
  apply DecoderBlock_call_shape in H0 as (n0 & b1 & b2 & b3 & c0 & H0x & H0s).
  rewrite H1s in H0x.
  apply volume_shape_inj in H0x as (<- & <- & <- & <- & _).
  apply Conv3D_call_inv in Hy as (ny & y1 & y2 & y3 & cy & Hyx & Hys).
  rewrite (conv_out_eq name names df kernel_size groups reduction
             kernel_regularizer kernel_initializer use_se θ) in Hyx, Hys.
  cbn [Conv3D.data_format Conv3D.strides Conv3D.filters] in Hyx, Hys.
  rewrite H0s in Hyx.
  apply volume_shape_inj in Hyx as (<- & <- & <- & <- & _).
  rewrite !same_extent_1 in Hys.
  apply Conv3D_call_inv in Ho as (no & o1 & o2 & o3 & co & Hox & Hos).
  rewrite (ptwise_logits_eq name names df kernel_size groups reduction
             kernel_regularizer kernel_initializer use_se θ) in Hox, Hos.
  cbn [Conv3D.data_format Conv3D.strides Conv3D.filters] in Hox, Hos.
  rewrite Hys in Hox.
  apply volume_shape_inj in Hox as (<- & <- & <- & <- & _).
  rewrite !same_extent_1 in Hos.
  exists n, d1, d2, d3, c. split; [done|].
  rewrite Hos. f_equal; lia.
Qed.

(** X5.  The residuals must come finest first: with the three residuals of
    a bottleneck of positive extent passed coarsest first, the first block is
    given the finest residual and the decoder raises. *)
Theorem ConvDecoder_call_residual_order
    (enc_out_0 enc_out_1 enc_out_2 x : Tensor) n d1 d2 d3 c :
  0 < d1 →
  shape x = volume_shape df n d1 d2 d3 c →
  shape enc_out_2
    = volume_shape df n (2 * d1) (2 * d2) (2 * d3) DEC_CONV_BLOCK2_SIZE →
  shape enc_out_1
    = volume_shape df n (4 * d1) (4 * d2) (4 * d3) DEC_CONV_BLOCK1_SIZE →
  shape enc_out_0
    = volume_shape df n (8 * d1) (8 * d2) (8 * d3) DEC_CONV_BLOCK0_SIZE →
  ∃ e, call self (enc_out_2, enc_out_1, enc_out_0, x) = Raise e.
Proof.
  intros Hpos Hx _ _ H0. unfold call, self. cbv beta iota.
  rewrite (dec_block_2_eq name names df kernel_size groups reduction
             kernel_regularizer kernel_initializer use_se θ).
  pose proof (DecoderBlock_call_volumes names.1.1 DEC_CONV_BLOCK2_SIZE
                kernel_size df groups reduction kernel_regularizer
                kernel_initializer use_se (dec_block_2_params θ)
                x enc_out_0 _ _ _ _ _ _ _ _ _ _ Hx H0) as Hcall.
  destruct (DecoderBlock.call _ (x, enc_out_0)) as [x2|e].
  - destruct Hcall as (_ & [?|?] & _); lia.
  - by exists e.
Qed.
End conv_decoder_shapes.

Section variational_autoencoder_block_shapes.
Context `{B : Backend}.
Import VariationalAutoencoderBlock.

Variables (name : string) (filters kernel_size : nat) (df : DataFormat).
Variables (groups : nat) (kernel_regularizer : option regularizer).
Variables (θ : params).

Let self : t := init name filters kernel_size df groups kernel_regularizer θ.

(** X6.  An autoencoder block takes a 5-D volume through the pointwise
    convolution (kernel size 1, [filters] channels, no activation), the
    upsampling that repeats every voxel twice along each spatial axis, and
    the convolutional block; the result has the same batch size, twice the
    spatial extent and [filters] channels.  Any other input raises
    [ValueError]. *)
Theorem VariationalAutoencoderBlock_call_shape (x : Tensor) :
  (as_volume df (shape x) = None → call self x = Raise ValueError) ∧
  (∀ n d1 d2 d3 c,
     shape x = volume_shape df n d1 d2 d3 c →
     ∃ p u y,
       Conv3D.linear (conv3d_ptwise self) x = Ok p ∧
       Conv3D.kernel_size (conv3d_ptwise self) = 1 ∧
       shape p = volume_shape df n d1 d2 d3 filters ∧
       UpSampling3D.call (upsample self) p = Ok u ∧
       (∀ b i j k ch,
          val u (volume_shape df b i j k ch)
          = val p (volume_shape df b (i / 2) (j / 2) (k / 2) ch)) ∧
       ConvBlock.call (conv_block self) u = Ok y ∧
       call self x = Ok y ∧
       shape y = volume_shape df n (2 * d1) (2 * d2) (2 * d3) filters).
Proof.
  split.
  - intros Hv. unfold call.
    by rewrite (Conv3D_call_not_volume (conv3d_ptwise self) x Hv).
  - intros n d1 d2 d3 c Hx.
    destruct (Conv3D_call_unit_stride (conv3d_ptwise self) x
                df n d1 d2 d3 c eq_refl eq_refl Hx) as (p & Hl & Hp & Hps).
    change (apply_activation _ p) with p in Hp.
    change (Conv3D.filters _) with filters in Hps.
    destruct (UpSampling3D_call_volume (upsample self) p n d1 d2 d3 filters
                Hps) as (u & Hu & Hus & Huv).
    change (shape u = volume_shape df n (2 * d1) (2 * d2) (2 * d3) filters)
      in Hus.
    destruct (ConvBlock_call_volume (conv_block self) u n
                (2 * d1) (2 * d2) (2 * d3) filters Hus) as (y & Hy & Hys).
    exists p, u, y. repeat split; try done.
    + intros b i j k ch. rewrite Huv. by destruct df.
    + unfold call. by rewrite Hp, bind_Ok, Hu, bind_Ok, Hy.
Qed.
End variational_autoencoder_block_shapes.

Section variational_autoencoder_shapes.
Context `{B : Backend} `{K : Constants}.
Import VariationalAutoencoder.

Variables (name2 name1 name0 : string).
Variables (df : DataFormat) (groups kernel_size : nat).
Variables (kernel_regularizer : option regularizer) (θ : params).

Let self : t :=
  init (name2, name1, name0) df groups kernel_size kernel_regularizer θ.

Lemma VD_block_not_volume (x : Tensor) :
  length (shape x) ≠ 5 → VD_block self x = Raise ValueError.
Proof.
  intros Hlen. unfold VD_block.
  unfold GroupNormalization.call, Activation.call. rewrite !bind_Ok.
  rewrite Conv3D_call_not_volume; [done|].
  cbn [shape tensor_map].
  by destruct (shape x) as [|? [|? [|? [|? [|? [|]]]]]].
Qed.

(** The sampling step on the two halves of the projection. *)
Lemma sample_latent (z_mean z_logvar : Tensor) (g : rng) n m l :
  shape z_mean = [n; m] →
  shape z_logvar = [n; l] →
  match sample (z_mean, z_logvar) g with
  | Ok (z, g') =>
      (m = l ∨ m = 1 ∨ l = 1) ∧
      g' = (normal_draw g [n; m]).2 ∧
      shape z = [n; if decide (l = 1) then m else l]
  | Raise e => e = InvalidArgumentError ∧ ¬ (m = l ∨ m = 1 ∨ l = 1)
  end.
Proof.
  intros Hm Hl.
  unfold sample, mbind, M_bind, random_normal. rewrite Hm.
  destruct (normal_draw g [n; m]) as [v g'] eqn:Hdraw.
  unfold tensor_mul, tensor_add, tensor_zip at 2, lift, result_bind.
  cbn [shape tensor_exp scalar_mul tensor_map snd]. rewrite Hl.
  unfold broadcast_shape at 1. cbn [reverse rev_append].
  rewrite !broadcast_rev_cons. cbn [broadcast_rev].
  rewrite (decide_True (P := n = n ∨ _)) by tauto.
  case_decide as Hc; cbn [fmap option_fmap option_map reverse rev_append].
  - unfold tensor_zip. cbn [shape]. rewrite Hm.
    unfold broadcast_shape. cbn [reverse rev_append].
    rewrite !broadcast_rev_cons. cbn [broadcast_rev].
    rewrite (decide_True (P := n = _ ∨ _)) by (case_decide; tauto).
    rewrite (decide_True (P := m = _ ∨ _)) by (case_decide; lia).
    cbn [fmap option_fmap option_map reverse rev_append shape].
    split; [lia|]. split; [done|].
    repeat case_decide; repeat f_equal; lia.
  - split; [done|lia].
Qed.

(** Everything after the sampling step builds a volume whose shape is set
    by the constants alone. *)
Lemma decode_shape (z : Tensor) n m :
  shape z = [n; m] →
  ∃ recon,
    decode self z = Ok recon ∧
    shape recon
    = match df with
      | channels_last =>
          [n; 16 * (H / 16); 16 * (W / 16); 16 * (D / 16); IN_CH]
      | channels_first => [n; IN_CH; 16 * (W / 16); 16 * (D / 16); 16]
      end.
Proof.
  intros Hz.
  destruct (VU_block_run name2 name1 name0 df groups kernel_size
              kernel_regularizer θ z n m Hz)
    as (_ & _ & _ & u & _ & _ & _ & _ & _ & _ & _ & _ & Hus & Hu).
  fold self in Hu.
  set (e1 := match df with channels_last => 2 * (H / 16)
                         | channels_first => 2 * (W / 16) end).
  set (e2 := match df with channels_last => 2 * (W / 16)
                         | channels_first => 2 * (D / 16) end).
  set (e3 := match df with channels_last => 2 * (D / 16)
                         | channels_first => 2 * 1 end).
  assert (shape u = volume_shape df n e1 e2 e3 VAE_VU_BLOCK_SIZE) as Hus'.
  { rewrite Hus. subst e1 e2 e3. by destruct df. }
  destruct (VariationalAutoencoderBlock_call_volume name2 VAE_CONV_BLOCK2_SIZE
              kernel_size df groups kernel_regularizer (conv_block_2_params θ)
              u _ _ _ _ _ Hus') as (x2 & H2 & H2s).
  destruct (VariationalAutoencoderBlock_call_volume name1 VAE_CONV_BLOCK1_SIZE
              kernel_size df groups kernel_regularizer (conv_block_1_params θ)
              x2 _ _ _ _ _ H2s) as (x1 & H1 & H1s).
  destruct (VariationalAutoencoderBlock_call_volume name0 VAE_CONV_BLOCK0_SIZE
              kernel_size df groups kernel_regularizer (conv_block_0_params θ)
              x1 _ _ _ _ _ H1s) as (y & H0 & H0s).
  destruct (Conv3D_call_unit_stride (conv_out self) y df _ _ _ _ _
              eq_refl eq_refl H0s) as (recon & _ & Hc & Hrs).
  change (apply_activation _ recon) with recon in Hc.
  change (Conv3D.filters _) with IN_CH in Hrs.
  exists recon. split.
  - unfold decode, VUp_blocks. rewrite Hu, bind_Ok.
    change (conv_block_2 self) with
      (VariationalAutoencoderBlock.init name2 VAE_CONV_BLOCK2_SIZE
         kernel_size df groups kernel_regularizer (conv_block_2_params θ)).
    change (conv_block_1 self) with
      (VariationalAutoencoderBlock.init name1 VAE_CONV_BLOCK1_SIZE
         kernel_size df groups kernel_regularizer (conv_block_1_params θ)).
    change (conv_block_0 self) with
      (VariationalAutoencoderBlock.init name0 VAE_CONV_BLOCK0_SIZE
         kernel_size df groups kernel_regularizer (conv_block_0_params θ)).
    by rewrite H2, bind_Ok, H1, bind_Ok, H0, bind_Ok.
  - rewrite Hrs. subst e1 e2 e3.
    destruct df; cbn [volume_shape]; repeat (f_equal; try lia).
Qed.

(** A run of the forward pass on a volume, whatever the constants are. *)
Lemma VariationalAutoencoder_call_cases (x : Tensor) (g : rng) n a b c e :
  shape x = [n; a; b; c; e] →
  let m := Nat.min VAE_LATENT_SIZE VAE_VD_BLOCK_SIZE in
  let l := VAE_VD_BLOCK_SIZE - VAE_LATENT_SIZE in
  match call self x g with
  | Ok (recon, z_mean, z_logvar, g') =>
      (m = l ∨ m = 1 ∨ l = 1) ∧
      shape z_mean = [n; m] ∧ shape z_logvar = [n; l] ∧
      g' = (normal_draw g [n; m]).2 ∧
      shape recon
      = match df with
        | channels_last =>
            [n; 16 * (H / 16); 16 * (W / 16); 16 * (D / 16); IN_CH]
        | channels_first => [n; IN_CH; 16 * (W / 16); 16 * (D / 16); 16]
        end
  | Raise err => err = InvalidArgumentError ∧ ¬ (m = l ∨ m = 1 ∨ l = 1)
  end.
Proof.
  intros Hx m l.
  destruct (VD_block_run name2 name1 name0 df groups kernel_size
              kernel_regularizer θ x n a b c e Hx) as (proj & Hproj & Hps).
  fold self in Hproj.
  destruct (slices_run proj n _ VAE_LATENT_SIZE Hps)
    as (z_mean & z_logvar & Hm & Hl & Hms & Hls & _ & _).
  pose proof (sample_latent z_mean z_logvar g n _ _ Hms Hls) as Hsample.
  unfold self at 1.
  rewrite (VariationalAutoencoder_call_blocks name2 name1 name0 df groups
             kernel_size kernel_regularizer θ x g).
  fold self.
  rewrite Hproj, M_bind_lift_Ok, Hm, M_bind_lift_Ok, Hl, M_bind_lift_Ok.
  unfold mbind at 1, M_bind at 1.
  destruct (sample (z_mean, z_logvar) g) as [[z g']|err]; [|done].
  destruct Hsample as (Hc & Hg & Hzs).
  destruct (decode_shape z n _ Hzs) as (recon & Hd & Hrs).
  by rewrite Hd, M_bind_lift_Ok.
Qed.

Lemma VariationalAutoencoder_call_ok_iff (x : Tensor) (g : rng) :
  length (shape x) = 5 →
  (∃ r, call self x g = Ok r) ↔
  (Nat.min VAE_LATENT_SIZE VAE_VD_BLOCK_SIZE
   = VAE_VD_BLOCK_SIZE - VAE_LATENT_SIZE ∨
   Nat.min VAE_LATENT_SIZE VAE_VD_BLOCK_SIZE = 1 ∨
   VAE_VD_BLOCK_SIZE - VAE_LATENT_SIZE = 1).
Proof.
  intros Hlen.
  destruct (shape x) as [|n [|a [|b [|c [|e [|]]]]]] eqn:Hx; try done.
  pose proof (VariationalAutoencoder_call_cases x g n a b c e Hx) as Hcall.
  cbv zeta in Hcall.
  destruct (call self x g) as [[[[recon z_mean] z_logvar] g']|err].
  - split; [tauto|eauto].
  - split; [by intros [r ?]|tauto].
Qed.

(** X7.  The autoencoder raises on an input that is no 5-D tensor.  On a
    5-D input of any extent it succeeds exactly when the two slices of the
    projection broadcast against each other: the first [VAE_LATENT_SIZE]
    entries against the rest, equal in number or one of the two a single
    entry. *)
Theorem VariationalAutoencoder_call_succeeds (x : Tensor) (g : rng) :
  let m := Nat.min VAE_LATENT_SIZE VAE_VD_BLOCK_SIZE in
  let l := VAE_VD_BLOCK_SIZE - VAE_LATENT_SIZE in
  (length (shape x) ≠ 5 → ∃ err, call self x g = Raise err) ∧
  (length (shape x) = 5 →
   ((∃ r, call self x g = Ok r) ↔ (m = l ∨ m = 1 ∨ l = 1))).
Proof.
  intros m l. split.
  - intros Hlen. exists ValueError. unfold self.
    rewrite (VariationalAutoencoder_call_blocks name2 name1 name0 df groups
               kernel_size kernel_regularizer θ x g).
    fold self. by rewrite (VD_block_not_volume x Hlen).
  - intros Hlen. by apply VariationalAutoencoder_call_ok_iff.
Qed.

(** X8.  What a successful run returns: a mean of [min(VAE_LATENT_SIZE,
    VAE_VD_BLOCK_SIZE)] entries and a log-variance of the remaining
    entries of the projection per batch element, the generator after one
    draw in the shape of the mean, and a reconstruction whose shape does
    not depend on the extent of the input: with the channels last, [H],
    [W] and [D] each rounded down to a multiple of 16 and [IN_CH]
    channels; with the channels first, [IN_CH] channels over the extents
    of [W] and [D] so rounded and an extent of 16. *)
Theorem VariationalAutoencoder_call_result_shapes
    (x : Tensor) (g g' : rng) (recon z_mean z_logvar : Tensor) :
  call self x g = Ok (recon, z_mean, z_logvar, g') →
  ∃ n a b c e,
    shape x = [n; a; b; c; e] ∧
    shape z_mean = [n; Nat.min VAE_LATENT_SIZE VAE_VD_BLOCK_SIZE] ∧
    shape z_logvar = [n; VAE_VD_BLOCK_SIZE - VAE_LATENT_SIZE] ∧
    g' = (normal_draw g (shape z_mean)).2 ∧
    shape recon
    = match df with
      | channels_last =>
          [n; 16 * (H / 16); 16 * (W / 16); 16 * (D / 16); IN_CH]
      | channels_first => [n; IN_CH; 16 * (W / 16); 16 * (D / 16); 16]
      end.
Proof.
  intros Hcall.
  destruct (decide (length (shape x) = 5)) as [Hlen|Hlen].
  - destruct (shape x) as [|n [|a [|b [|c [|e [|]]]]]] eqn:Hx; try done.
    pose proof (VariationalAutoencoder_call_cases x g n a b c e Hx) as Hc.
    rewrite Hcall in Hc. destruct Hc as (_ & Hm & Hl & Hg & Hr).
    exists n, a, b, c, e. rewrite Hm. done.
  - unfold self in Hcall.
    rewrite (VariationalAutoencoder_call_blocks name2 name1 name0 df groups
               kernel_size kernel_regularizer θ x g) in Hcall.
    fold self in Hcall. by rewrite (VD_block_not_volume x Hlen) in Hcall.
Qed.
End variational_autoencoder_shapes.

Section variational_autoencoder_generator.
Context `{B : Backend} `{K : Constants}.
Import VariationalAutoencoder.

Variables (name2 name1 name0 : string).
Variables (df : DataFormat) (groups kernel_size : nat).
Variables (kernel_regularizer : option regularizer) (θ : params).

Let self : t :=
  init (name2, name1, name0) df groups kernel_size kernel_regularizer θ.

(** X9.  The generator only enters the reconstruction: whether a run
    succeeds, and the mean and the log-variance it returns, are the same for every
    state of the generator. *)
Theorem VariationalAutoencoder_latent_ignores_generator
    (x : Tensor) (g1 g2 : rng) :
  ((∃ r, call self x g1 = Ok r) ↔ (∃ r, call self x g2 = Ok r)) ∧
  (∀ recon1 recon2 z_mean1 z_mean2 z_logvar1 z_logvar2 g1' g2',
     call self x g1 = Ok (recon1, z_mean1, z_logvar1, g1') →
     call self x g2 = Ok (recon2, z_mean2, z_logvar2, g2') →
     z_mean1 = z_mean2 ∧ z_logvar1 = z_logvar2).
Proof.
  split.
  - destruct (decide (length (shape x) = 5)) as [Hlen|Hlen].
    + unfold self.
      by rewrite !(VariationalAutoencoder_call_ok_iff name2 name1 name0 df
                     groups kernel_size kernel_regularizer θ x _ Hlen).
    + unfold self.
      rewrite !(VariationalAutoencoder_call_blocks name2 name1 name0 df groups
                  kernel_size kernel_regularizer θ).
      rewrite (VD_block_not_volume name2 name1 name0 df groups kernel_size
                 kernel_regularizer θ x Hlen).
      split; intros [r Hr]; done.
  - intros * H1 H2.
    apply VariationalAutoencoder_call_inv in H1
      as (proj1 & z1 & Hp1 & Hm1 & Hl1 & _ & _).
    apply VariationalAutoencoder_call_inv in H2
      as (proj2 & z2 & Hp2 & Hm2 & Hl2 & _ & _).
    assert (proj2 = proj1) as -> by congruence.
    split; congruence.
Qed.
End variational_autoencoder_generator.

(** ** Configurations of the decoder and of its blocks *)

Section configuration_extras.
Context `{B : Backend} `{K : Constants}.

(** C7.  The round trip through the configuration fails for both decoder
    classes: the record [get_config] returns carries the base layer's
    [name], [trainable] and [dtype], which [__init__] does not accept, so
    rebuilding a layer from it raises [TypeError] and no layer with an equal
    record is obtained.  Without these three keys the record would bind to
    the parameters of [__init__], the kernel initializer not being among
    its entries. *)
Theorem decoder_from_config_raises :
  (∀ name filters kernel_size df groups reduction kernel_regularizer
     kernel_initializer use_se θ,
     let cfg :=
       DecoderBlock.get_config
         (DecoderBlock.init name filters kernel_size df groups reduction
            kernel_regularizer kernel_initializer use_se θ) in
     Layer.bind_keywords DecoderBlock.init_params ["filters"] cfg
     = Raise TypeError ∧
     ∃ kwargs,
       Layer.bind_keywords DecoderBlock.init_params ["filters"]
         (delete "name" (delete "trainable" (delete "dtype" cfg)))
       = Ok kwargs ∧
       kwargs !! "filters" = Some (VInt (Z.of_nat filters)) ∧
       kwargs !! "kernel_initializer" = None) ∧
  (∀ name names df kernel_size groups reduction kernel_regularizer
     kernel_initializer use_se θ,
     let cfg :=
       ConvDecoder.get_config
         (ConvDecoder.init name names df kernel_size groups reduction
            kernel_regularizer kernel_initializer use_se θ) in
     Layer.bind_keywords ConvDecoder.init_params [] cfg = Raise TypeError ∧
     ∃ kwargs,
       Layer.bind_keywords ConvDecoder.init_params []
         (delete "name" (delete "trainable" (delete "dtype" cfg)))
       = Ok kwargs ∧
       kwargs !! "kernel_initializer" = None).
Proof.
  split.
  - intros. split; [apply DecoderBlock_from_config_raises|].
    exists (delete "name" (delete "trainable" (delete "dtype" cfg))).
    split; [|split; reflexivity].
    unfold Layer.bind_keywords.
    rewrite decide_True; [rewrite decide_True; [done|]|].
    + intros k Hk. apply elem_of_list_to_set, list_elem_of_singleton in Hk
        as ->.
      apply elem_of_dom. by eexists.
    + intros k [v Hk]%elem_of_dom. apply elem_of_list_to_set.
      unfold DecoderBlock.init_params.
      destruct (decide (k = "filters")) as [->|]; [by repeat constructor|].
      destruct (decide (k = "kernel_size")) as [->|]; [by repeat constructor|].
      destruct (decide (k = "data_format")) as [->|]; [by repeat constructor|].
      destruct (decide (k = "groups")) as [->|]; [by repeat constructor|].
      destruct (decide (k = "reduction")) as [->|]; [by repeat constructor|].
      destruct (decide (k = "kernel_regularizer")) as [->|]; [by repeat constructor|].
      destruct (decide (k = "use_se")) as [->|]; [by repeat constructor|].
      exfalso. subst cfg.
      unfold DecoderBlock.get_config, DecoderBlock.init, DecoderBlock.config,
        update, Layer.get_config in Hk.
      rewrite !lookup_delete in Hk. repeat case_decide; try done.
      rewrite lookup_union in Hk.
      rewrite !lookup_insert in Hk.
      repeat case_decide; try done; by rewrite !lookup_empty in Hk.
  - intros name [[??]?] *. split.
    + apply bind_keywords_name; [by eexists|].
      unfold ConvDecoder.init_params.
      rewrite !not_elem_of_cons. repeat split; try done. apply not_elem_of_nil.
    + exists (delete "name" (delete "trainable" (delete "dtype" cfg))).
      split; [|reflexivity].
      unfold Layer.bind_keywords.
      rewrite decide_True; [rewrite decide_True; [done|]|].
      * intros k Hk. by apply elem_of_list_to_set, elem_of_nil in Hk.
      * intros k [v Hk]%elem_of_dom. apply elem_of_list_to_set.
        unfold ConvDecoder.init_params.
        destruct (decide (k = "kernel_size")) as [->|]; [by repeat constructor|].
        destruct (decide (k = "data_format")) as [->|]; [by repeat constructor|].
        destruct (decide (k = "groups")) as [->|]; [by repeat constructor|].
        destruct (decide (k = "reduction")) as [->|]; [by repeat constructor|].
        destruct (decide (k = "kernel_regularizer")) as [->|]; [by repeat constructor|].
        destruct (decide (k = "use_se")) as [->|]; [by repeat constructor|].
        exfalso. subst cfg.
        unfold ConvDecoder.get_config, ConvDecoder.init, ConvDecoder.config,
          update, Layer.get_config in Hk.
        rewrite !lookup_delete in Hk. repeat case_decide; try done.
        rewrite lookup_union in Hk.
        rewrite !lookup_insert in Hk.
        repeat case_decide; try done; by rewrite !lookup_empty in Hk.
Qed.

(** X10.  The decoder hands its hyperparameters on unchanged: the record of
    each of its three blocks agrees with the decoder's own on kernel size, data
    layout, groups, reduction, regularizer descriptor and squeeze-excitation
    switch, and holds the filter count of its level. *)
Theorem ConvDecoder_blocks_share_config
    name names df kernel_size groups reduction kernel_regularizer
    kernel_initializer use_se θ :
  let self :=
    ConvDecoder.init name names df kernel_size groups reduction
      kernel_regularizer kernel_initializer use_se θ in
  let shared :=
    ["kernel_size"; "data_format"; "groups"; "reduction";
     "kernel_regularizer"; "use_se"] in
  (∀ k, k ∈ shared →
     DecoderBlock.get_config (ConvDecoder.dec_block_2 self) !! k
       = ConvDecoder.get_config self !! k ∧
     DecoderBlock.get_config (ConvDecoder.dec_block_1 self) !! k
       = ConvDecoder.get_config self !! k ∧
     DecoderBlock.get_config (ConvDecoder.dec_block_0 self) !! k
       = ConvDecoder.get_config self !! k) ∧
  DecoderBlock.get_config (ConvDecoder.dec_block_2 self) !! "filters"
    = Some (VInt (Z.of_nat DEC_CONV_BLOCK2_SIZE)) ∧
  DecoderBlock.get_config (ConvDecoder.dec_block_1 self) !! "filters"
    = Some (VInt (Z.of_nat DEC_CONV_BLOCK1_SIZE)) ∧
  DecoderBlock.get_config (ConvDecoder.dec_block_0 self) !! "filters"
    = Some (VInt (Z.of_nat DEC_CONV_BLOCK0_SIZE)).
Proof.
  destruct names as [[name2 name1] name0]. intros self shared.
  split; [|repeat split; reflexivity].
  intros k Hk. subst shared.
  repeat (apply elem_of_cons in Hk as [->|Hk]; [repeat split; reflexivity|]).
  by apply elem_of_nil in Hk.
Qed.
End configuration_extras.

Section variational_autoencoder_VD.
Context `{B : Backend} `{K : Constants}.
Import VariationalAutoencoder.

Variables (name2 name1 name0 : string).
Variables (df : DataFormat) (groups kernel_size : nat).
Variables (kernel_regularizer : option regularizer) (θ : params).

Let self : t :=
  init (name2, name1, name0) df groups kernel_size kernel_regularizer θ.

(** X11.  The VD block on a volume, stage by stage: the normalization and
    the rectifier keep the shape, the convolution of stride 2 halves each
    spatial extent rounding up and gives [VAE_VD_CONV_SIZE] channels, the
    flattening gives one vector per batch element with as many entries as
    that volume has, and the dense layer projects it to
    [VAE_VD_BLOCK_SIZE] entries. *)
Theorem VariationalAutoencoder_VD_block_stages (x : Tensor) n d1 d2 d3 c :
  shape x = volume_shape df n d1 d2 d3 c →
  ∃ normed conv flat proj,
    GroupNormalization.call (groupnorm_VD self) x = Ok normed ∧
    shape normed = shape x ∧
    Activation.call (relu_VD self) normed = Ok (tensor_map f_relu normed) ∧
    Conv3D.call (conv3d_VD self) (tensor_map f_relu normed) = Ok conv ∧
    shape conv
    = volume_shape df n ((d1 + 1) / 2) ((d2 + 1) / 2) ((d3 + 1) / 2)
        VAE_VD_CONV_SIZE ∧
    Flatten.call (flatten_VD self) conv = Ok flat ∧
    shape flat
    = [n; (d1 + 1) / 2 * ((d2 + 1) / 2) * ((d3 + 1) / 2) * VAE_VD_CONV_SIZE] ∧
    Dense.call (proj_VD self) flat = Ok proj ∧
    shape proj = [n; VAE_VD_BLOCK_SIZE] ∧
    VD_block self x = Ok proj.
Proof.
  intros Hx.
  set (normed := {| shape := shape x;
                    val := group_norm_kernel (groupnorm_VD_weights θ) groups
                             (match df with
                              | channels_last => (-1)%Z
                              | channels_first => 1%Z
                              end) (shape x) (val x) |}).
  assert (GroupNormalization.call (groupnorm_VD self) x = Ok normed) as Hn
    by done.
  assert (Activation.call (relu_VD self) normed
          = Ok (tensor_map f_relu normed)) as Ha by done.
  destruct (Conv3D_linear_volume (conv3d_VD self) (tensor_map f_relu normed)
              n d1 d2 d3 c Hx) as (conv & Hl & _ & Hcs).
  assert (Conv3D.call (conv3d_VD self) (tensor_map f_relu normed) = Ok conv)
    as Hc by (unfold Conv3D.call; by rewrite Hl).
  cbn [Conv3D.data_format Conv3D.strides Conv3D.filters conv3d_VD self init]
    in Hcs.
  assert (∀ d, same_extent d 2 = (d + 1) / 2) as Hse.
  { intros d. unfold same_extent. f_equal. lia. }
  rewrite !Hse in Hcs.
  assert (∃ flat,
            Flatten.call (flatten_VD self) conv = Ok flat ∧
            shape flat
            = [n; (d1 + 1) / 2 * ((d2 + 1) / 2) * ((d3 + 1) / 2)
                  * VAE_VD_CONV_SIZE]) as (flat & Hf & Hfs).
  { unfold Flatten.call. rewrite Hcs.
    destruct df; cbn [volume_shape]; (eexists; split; [done|]);
      cbn [shape prod_dims foldr]; f_equal; f_equal; lia. }
  assert (∃ proj,
            Dense.call (proj_VD self) flat = Ok proj ∧
            shape proj = [n; VAE_VD_BLOCK_SIZE]) as (proj & Hp & Hps).
  { unfold Dense.call, rank. rewrite Hfs. cbn [length].
    rewrite decide_True by lia. eauto. }
  exists normed, conv, flat, proj. repeat split; try done.
  unfold VD_block. by rewrite Hn, bind_Ok, Ha, bind_Ok, Hc, bind_Ok, Hf, bind_Ok.
Qed.
End variational_autoencoder_VD.

(** ** The further properties on concrete inputs *)

Lemma sample_broadcast_witness :
  broadcast_shape [2; 1] [2; 3] = Some [2; 3] ∧
  in_range [1; 2] [2; 3] ∧
  ∃ z, sample (input_tensor 0 [2; 3], input_tensor 1 [2; 1]) (0, 0)
         = Ok (z, (1, 1)) ∧
       shape z = [2; 3] ∧
       val z [1; 2]
       = SAdd (SInput 0 [1; 2])
           (SMul (SExp (SMul SHalf (SInput 1 [1; 0]))) (SNormal 0 [1; 2])).
Proof.
  assert (broadcast_shape [2; 1] [2; 3] = Some [2; 3]) as Hs by reflexivity.
  assert (in_range [1; 2] [2; 3]) as Hr.
  { unfold in_range. repeat constructor. }
  split; [exact Hs|]. split; [exact Hr|].
  destruct (proj2 (sample_broadcast (B:=symbolic) (input_tensor 0 [2; 3])
                     (input_tensor 1 [2; 1]) (0, 0)) [2; 3] Hs)
    as (z & Hz & Hzs & Hzv).
  exists z. split; [exact Hz|]. split; [exact Hzs|]. exact (Hzv [1; 2] Hr).
Defined.

Lemma DecoderBlock_call_output_shape_witness :
  length (shape (input_tensor 1 [1; 1; 1; 1; 128])) = 5 ∧
  ∃ out,
    DecoderBlock.call
      (DecoderBlock.init_default "decoder_block" 128 (decoder_block_weights 0))
      (input_tensor 0 [1; 2; 2; 2; 256], input_tensor 1 [1; 1; 1; 1; 128])
    = Ok out ∧
    ∃ n d1 d2 d3 c,
      shape (input_tensor 0 [1; 2; 2; 2; 256])
      = volume_shape channels_last n d1 d2 d3 c ∧
      shape out
      = volume_shape channels_last n (2 * d1) (2 * d2) (2 * d3) 128.
Proof.
  split; [reflexivity|].
  eexists. split; [reflexivity|].
  apply (DecoderBlock_call_output_shape (B:=symbolic) "decoder_block" 128 3
           channels_last 8 4 None he_normal false (decoder_block_weights 0)
           (input_tensor 0 [1; 2; 2; 2; 256])
           (input_tensor 1 [1; 1; 1; 1; 128])); reflexivity.
Defined.

Lemma DecoderBlock_call_accepts_witness :
  shape (input_tensor 1 [1; 4; 1; 4; 128])
  = volume_shape channels_last 1 4 1 4 128 ∧
  shape (input_tensor 0 [1; 2; 2; 2; 256])
  = volume_shape channels_last 1 2 2 2 256 ∧
  ∃ out,
    DecoderBlock.call
      (DecoderBlock.init_default "decoder_block" 128 (decoder_block_weights 0))
      (input_tensor 0 [1; 2; 2; 2; 256], input_tensor 1 [1; 4; 1; 4; 128])
    = Ok out.
Proof.
  split; [reflexivity|]. split; [reflexivity|].
  apply (proj2 (DecoderBlock_call_accepts (B:=symbolic) "decoder_block" 128 3
                  channels_last 8 4 None he_normal false
                  (decoder_block_weights 0)
                  (input_tensor 0 [1; 2; 2; 2; 256])
                  (input_tensor 1 [1; 4; 1; 4; 128])
                  1 2 2 2 256 1 4 1 4 128 eq_refl) eq_refl).
  repeat split; lia.
Defined.

Lemma ConvDecoder_call_output_shape_witness :
  0 < OUT_CH ∧
  length (shape (input_tensor 0 [1; 16; 16; 16; 32])) = 5 ∧
  length (shape (input_tensor 1 [1; 8; 8; 8; 64])) = 5 ∧
  length (shape (input_tensor 2 [1; 4; 4; 4; 128])) = 5 ∧
  ∃ out,
    ConvDecoder.call decoder_0
      (input_tensor 0 [1; 16; 16; 16; 32], input_tensor 1 [1; 8; 8; 8; 64],
       input_tensor 2 [1; 4; 4; 4; 128], input_tensor 3 [1; 2; 2; 2; 256])
    = Ok out ∧
    ∃ n d1 d2 d3 c,
      shape (input_tensor 3 [1; 2; 2; 2; 256])
      = volume_shape channels_last n d1 d2 d3 c ∧
      shape out
      = volume_shape channels_last n (8 * d1) (8 * d2) (8 * d3) (OUT_CH - 1).
Proof.
  assert (0 < OUT_CH) as Hpos by (simpl; lia).
  split; [exact Hpos|]. do 3 (split; [reflexivity|]).
  destruct (ConvDecoder_call_run (B:=symbolic) (K:=paper_sizes)
              "conv_decoder" decoder_names channels_last 3 8 4 None he_normal
              false decoder_weights
              (input_tensor 0 [1; 16; 16; 16; 32])
              (input_tensor 1 [1; 8; 8; 8; 64])
              (input_tensor 2 [1; 4; 4; 4; 128])
              (input_tensor 3 [1; 2; 2; 2; 256])
              1 2 2 2 256 eq_refl eq_refl eq_refl eq_refl)
    as (x2 & x1 & x0 & y & logits & _ & _ & _ & _ & _ & Hcall & _).
  eexists. split; [exact Hcall|].
  exact (ConvDecoder_call_output_shape (B:=symbolic) (K:=paper_sizes)
           "conv_decoder" decoder_names channels_last 3 8 4 None he_normal
           false decoder_weights
           (input_tensor 0 [1; 16; 16; 16; 32])
           (input_tensor 1 [1; 8; 8; 8; 64])
           (input_tensor 2 [1; 4; 4; 4; 128])
           (input_tensor 3 [1; 2; 2; 2; 256]) _
           Hpos eq_refl eq_refl eq_refl Hcall).
Defined.

Lemma ConvDecoder_call_residual_order_witness :
  0 < 2 ∧
  ∃ e,
    ConvDecoder.call decoder_0
      (input_tensor 2 [1; 4; 4; 4; 128], input_tensor 1 [1; 8; 8; 8; 64],
       input_tensor 0 [1; 16; 16; 16; 32], input_tensor 3 [1; 2; 2; 2; 256])
    = Raise e.
Proof.
  assert (0 < 2) as Hpos by lia.
  split; [exact Hpos|].
  exact (ConvDecoder_call_residual_order (B:=symbolic) (K:=paper_sizes)
           "conv_decoder" decoder_names channels_last 3 8 4 None he_normal
           false decoder_weights
           (input_tensor 0 [1; 16; 16; 16; 32])
           (input_tensor 1 [1; 8; 8; 8; 64])
           (input_tensor 2 [1; 4; 4; 4; 128])
           (input_tensor 3 [1; 2; 2; 2; 256])
           1 2 2 2 256 Hpos eq_refl eq_refl eq_refl eq_refl).
Defined.

Lemma VariationalAutoencoderBlock_call_shape_witness :
  shape (input_tensor 0 [1; 8; 8; 8; 256])
  = volume_shape channels_last 1 8 8 8 256 ∧
  ∃ y,
    VariationalAutoencoderBlock.call
      (VariationalAutoencoderBlock.init "variational_autoencoder_block" 128 3
         channels_last 8 None (vae_block_weights 5))
      (input_tensor 0 [1; 8; 8; 8; 256])
    = Ok y ∧
    shape y = [1; 16; 16; 16; 128].
Proof.
  split; [reflexivity|].
  destruct (proj2 (VariationalAutoencoderBlock_call_shape (B:=symbolic)
                     "variational_autoencoder_block" 128 3 channels_last 8
                     None (vae_block_weights 5)
                     (input_tensor 0 [1; 8; 8; 8; 256]))
              1 8 8 8 256 eq_refl)
    as (p & u & y & _ & _ & _ & _ & _ & _ & Hcall & Hys).
  exists y. split; [exact Hcall|exact Hys].
Defined.

Lemma VariationalAutoencoder_call_succeeds_witness :
  length (shape bottleneck_0) = 5 ∧
  (Nat.min VAE_LATENT_SIZE VAE_VD_BLOCK_SIZE
   = VAE_VD_BLOCK_SIZE - VAE_LATENT_SIZE) ∧
  ∃ r, VariationalAutoencoder.call vae_0 bottleneck_0 (0, 0) = Ok r.
Proof.
  split; [reflexivity|]. split; [reflexivity|].
  destruct (VariationalAutoencoder_call_succeeds (B:=symbolic)
              (K:=paper_sizes)
              "variational_autoencoder_block" "variational_autoencoder_block_1"
              "variational_autoencoder_block_2" channels_last 8 3 None
              vae_weights bottleneck_0 (0, 0)) as [_ Hiff].
  apply (Hiff eq_refl). left. reflexivity.
Defined.

Lemma VariationalAutoencoder_call_result_shapes_witness :
  ∃ recon z_mean z_logvar g',
    VariationalAutoencoder.call vae_0 bottleneck_0 (0, 0)
    = Ok (recon, z_mean, z_logvar, g') ∧
    shape recon = [1; 64; 64; 64; 4] ∧
    shape z_mean = [1; 128].
Proof.
  destruct (VariationalAutoencoder_call_run (B:=symbolic) (K:=paper_sizes)
              "variational_autoencoder_block"
              "variational_autoencoder_block_1"
              "variational_autoencoder_block_2" channels_last 8 3 None
              vae_weights bottleneck_0 (0, 0) 1 8 8 8 256 eq_refl eq_refl)
    as (proj0 & z_mean & z_logvar & z0 & recon & _ & _ & _ & _ & _ & _ & _ & _
        & _ & _ & _ & Hcall).
  exists recon, z_mean, z_logvar. eexists.
  split; [exact Hcall|].
  destruct (VariationalAutoencoder_call_result_shapes (B:=symbolic)
              (K:=paper_sizes)
              "variational_autoencoder_block" "variational_autoencoder_block_1"
              "variational_autoencoder_block_2" channels_last 8 3 None
              vae_weights bottleneck_0 (0, 0) _ recon z_mean z_logvar Hcall)
    as (n & a & b & c & e & Hx & Hm & _ & _ & Hr).
  injection Hx as <- _ _ _ _.
  split; [exact Hr|exact Hm].
Defined.

Lemma VariationalAutoencoder_latent_ignores_generator_witness :
  ∃ recon1 recon2 z_mean1 z_mean2 z_logvar1 z_logvar2 g1' g2',
    VariationalAutoencoder.call vae_0 bottleneck_0 (0, 0)
    = Ok (recon1, z_mean1, z_logvar1, g1') ∧
    VariationalAutoencoder.call vae_0 bottleneck_0 (7, 0)
    = Ok (recon2, z_mean2, z_logvar2, g2') ∧
    z_mean1 = z_mean2 ∧ z_logvar1 = z_logvar2.
Proof.
  destruct (VariationalAutoencoder_call_run (B:=symbolic) (K:=paper_sizes)
              "variational_autoencoder_block"
              "variational_autoencoder_block_1"
              "variational_autoencoder_block_2" channels_last 8 3 None
              vae_weights bottleneck_0 (0, 0) 1 8 8 8 256 eq_refl eq_refl)
    as (pr1 & z_mean1 & z_logvar1 & z1 & recon1 & _ & _ & _ & _ & _ & _ & _
        & _ & _ & _ & _ & Hcall1).
  destruct (VariationalAutoencoder_call_run (B:=symbolic) (K:=paper_sizes)
              "variational_autoencoder_block"
              "variational_autoencoder_block_1"
              "variational_autoencoder_block_2" channels_last 8 3 None
              vae_weights bottleneck_0 (7, 0) 1 8 8 8 256 eq_refl eq_refl)
    as (pr2 & z_mean2 & z_logvar2 & z2 & recon2 & _ & _ & _ & _ & _ & _ & _
        & _ & _ & _ & _ & Hcall2).
  exists recon1, recon2, z_mean1, z_mean2, z_logvar1, z_logvar2.
  do 2 eexists. split; [exact Hcall1|]. split; [exact Hcall2|].
  exact (proj2 (VariationalAutoencoder_latent_ignores_generator
                  (B:=symbolic) (K:=paper_sizes)
                  "variational_autoencoder_block"
                  "variational_autoencoder_block_1"
                  "variational_autoencoder_block_2" channels_last 8 3 None
                  vae_weights bottleneck_0 (0, 0) (7, 0))
           _ _ _ _ _ _ _ _ Hcall1 Hcall2).
Defined.

Lemma ConvDecoder_blocks_share_config_witness :
  "groups" ∈ ["kernel_size"; "data_format"; "groups"; "reduction";
              "kernel_regularizer"; "use_se"] ∧
  DecoderBlock.get_config (ConvDecoder.dec_block_0 decoder_0) !! "groups"
  = ConvDecoder.get_config decoder_0 !! "groups".
Proof.
  assert ("groups" ∈ ["kernel_size"; "data_format"; "groups"; "reduction";
                      "kernel_regularizer"; "use_se"]) as Hin
    by repeat constructor.
  split; [exact Hin|].
  exact (proj2 (proj2 (proj1 (ConvDecoder_blocks_share_config (B:=symbolic)
                                (K:=paper_sizes) "conv_decoder" decoder_names
                                channels_last 3 8 4 None he_normal false
                                decoder_weights) "groups" Hin))).
Defined.

Lemma VariationalAutoencoder_VD_block_stages_witness :
  shape (input_tensor 0 [1; 7; 8; 9; 256])
  = volume_shape channels_last 1 7 8 9 256 ∧
  ∃ conv proj,
    shape conv = [1; 4; 4; 5; 16] ∧
    VD_block vae_0 (input_tensor 0 [1; 7; 8; 9; 256]) = Ok proj ∧
    shape proj = [1; 256].
Proof.
  split; [reflexivity|].
  destruct (VariationalAutoencoder_VD_block_stages (B:=symbolic)
              (K:=paper_sizes)
              "variational_autoencoder_block" "variational_autoencoder_block_1"
              "variational_autoencoder_block_2" channels_last 8 3 None
              vae_weights (input_tensor 0 [1; 7; 8; 9; 256])
              1 7 8 9 256 eq_refl)
    as (normed & conv & flat & proj & _ & _ & _ & _ & Hcs & _ & _ & _ & Hps
        & Hvd).
  exists conv, proj. split; [exact Hcs|]. split; [exact Hvd|exact Hps].
Defined.
